(** * Retry orchestration and request execution of the Azure SDK for Python

    A shallow embedding of
    - [azure/core/pipeline/policies/retry_async.py] (class [AsyncRetryPolicy]),
    - [azure/cosmos/_synchronized_request.py] (function [_Request]),
    - [azure/cosmos/cosmos_client.py] (function [_build_connection_policy]),
    together with the properties of the request pipeline that the
    specification states about them.

    Durations are Python floats in the source.  They are modelled as
    rationals ([Q]): the only arithmetic performed on them is a comparison,
    a minimum and a multiplication by a power of two. *)

From Stdlib Require Import ZArith QArith String Ascii List Bool Lia.
From stdpp Require Import gmap strings.
Import ListNotations.

Local Open Scope string_scope.
Local Open Scope Z_scope.

(** ** Python values and truthiness *)

(** The dynamically typed values that travel in keyword-argument
    dictionaries and in option mappings. *)
Inductive value :=
| VNone
| VBool (b : bool)
| VInt (n : Z)
| VFloat (q : Q)
| VStr (s : string)
| VTuple (a b : value).

(** [bool(q)] for a number: zero is false. *)
Definition truthy_num (q : Q) : bool := negb (Qeq_bool q 0).

(** [bool(v)]. *)
Definition truthy (v : value) : bool :=
  match v with
  | VNone => false
  | VBool b => b
  | VInt n => negb (n =? 0)
  | VFloat q => truthy_num q
  | VStr s => negb (String.eqb s "")
  | VTuple _ _ => true
  end.

(** [str(v)], as far as the embedded code needs it: strings are unchanged;
    the rendering of the other values is left to the parameter [repr]. *)
Definition py_str (repr : value -> string) (v : value) : string :=
  match v with
  | VStr s => s
  | _ => repr v
  end.

(** ** Python string operations *)

Module PyStr.

Definition ascii_lower (c : ascii) : ascii :=
  let n := nat_of_ascii c in
  if (65 <=? n)%nat && (n <=? 90)%nat then ascii_of_nat (n + 32) else c.

(** [s.lower()], on ASCII. *)
Fixpoint lower (s : string) : string :=
  match s with
  | EmptyString => EmptyString
  | String c s' => String (ascii_lower c) (lower s')
  end.

(** [all(p(c) for c in s)] and [any(p(c) for c in s)]. *)
Fixpoint all_chars (p : ascii -> bool) (s : string) : bool :=
  match s with
  | EmptyString => true
  | String c s' => p c && all_chars p s'
  end.

Fixpoint any_char (p : ascii -> bool) (s : string) : bool :=
  match s with
  | EmptyString => false
  | String c s' => p c || any_char p s'
  end.

(** [s.find(sub)]: the index of the first occurrence, or -1. *)
Fixpoint find_from (i : Z) (sub s : string) : Z :=
  if String.prefix sub s then i
  else match s with
       | EmptyString => -1
       | String _ s' => find_from (i + 1) sub s'
       end.

Definition find (sub s : string) : Z := find_from 0 sub s.

(** [sub in s] *)
Fixpoint occurs (sub s : string) : bool :=
  String.prefix sub s ||
  match s with
  | EmptyString => false
  | String _ s' => occurs sub s'
  end.

(** [s.replace(old, new)] for a non-empty [old]: every occurrence, found
    from the left and not overlapping the previous one, is replaced.
    [skip] counts the characters of the current occurrence still to pass. *)
Fixpoint replace_skip (old new : string) (skip : nat) (s : string) : string :=
  match s with
  | EmptyString => EmptyString
  | String c s' =>
      match skip with
      | S k => replace_skip old new k s'
      | O =>
          if String.prefix old s
          then new ++ replace_skip old new (String.length old - 1) s'
          else String c (replace_skip old new 0 s')
      end
  end.

(** With an empty [old], [new] goes before every character and at the end. *)
Fixpoint interleave (new s : string) : string :=
  match s with
  | EmptyString => new
  | String c s' => new ++ String c (interleave new s')
  end.

Definition replace (old new s : string) : string :=
  match old with
  | EmptyString => interleave new s
  | _ => replace_skip old new 0 s
  end.

(** [s.partition(c)] for a one-character separator: the text before and
    after its first occurrence, [None] when it does not occur. *)
Fixpoint partition (c : ascii) (s : string) : option (string * string) :=
  match s with
  | EmptyString => None
  | String a s' =>
      if Ascii.eqb a c then Some (EmptyString, s')
      else match partition c s' with
           | Some (before, after) => Some (String a before, after)
           | None => None
           end
  end.

(** [s.rpartition(c)]: the same around the last occurrence. *)
Fixpoint rpartition (c : ascii) (s : string) : option (string * string) :=
  match s with
  | EmptyString => None
  | String a s' =>
      match rpartition c s' with
      | Some (before, after) => Some (String a before, after)
      | None => if Ascii.eqb a c then Some (EmptyString, s') else None
      end
  end.

(** [s.split(c, 1)]: the whole string and nothing when [c] does not occur. *)
Definition split_once (c : ascii) (s : string) : string * string :=
  match partition c s with
  | Some (before, after) => (before, after)
  | None => (s, EmptyString)
  end.

(** The text before the first character satisfying [p], and the rest, which
    starts with that character. *)
Fixpoint break_at (p : ascii -> bool) (s : string) : string * string :=
  match s with
  | EmptyString => (EmptyString, EmptyString)
  | String a s' =>
      if p a then (EmptyString, s)
      else let '(before, rest) := break_at p s' in (String a before, rest)
  end.

End PyStr.

(** ** azure.core: requests, responses, exceptions *)

Module Core.

Record HttpRequest := {
  method : string;
  url : string;
  headers : gmap string value;
  data : option string
}.

Record HttpResponse := {
  status_code : Z;
  (** header names compare without regard to case: an association list *)
  response_headers : list (string * string);
  (** the raw bytes of the body, as [response.body()] returns them *)
  body : list Byte.byte
}.

(** The exception classes the embedded code raises or catches.  In
    azure.core every class below [AzureError] derives from it, and
    [ClientAuthenticationError] derives from [HttpResponseError]; the
    Cosmos classes derive from [CosmosHttpResponseError], itself an
    [HttpResponseError]. *)
Inductive ExnClass :=
| AzureError
| ServiceRequestError
| ServiceResponseError
| HttpResponseError
| ClientAuthenticationError
| DecodeError
| CosmosHttpResponseError
| CosmosResourceNotFoundError
| CosmosResourceExistsError
| CosmosAccessConditionFailedError
| AttributeError
| UnicodeDecodeError
| OtherException (name : string).

(** Direct base class; [None] for classes outside the AzureError tree. *)
Definition base_class (c : ExnClass) : option ExnClass :=
  match c with
  | AzureError => None
  | ServiceRequestError => Some AzureError
  | ServiceResponseError => Some AzureError
  | HttpResponseError => Some AzureError
  | ClientAuthenticationError => Some HttpResponseError
  | DecodeError => Some HttpResponseError
  | CosmosHttpResponseError => Some HttpResponseError
  | CosmosResourceNotFoundError => Some CosmosHttpResponseError
  | CosmosResourceExistsError => Some CosmosHttpResponseError
  | CosmosAccessConditionFailedError => Some CosmosHttpResponseError
  | AttributeError => None
  | UnicodeDecodeError => None
  | OtherException _ => None
  end.

Definition ExnClass_eqb (a b : ExnClass) : bool :=
  match a, b with
  | AzureError, AzureError
  | ServiceRequestError, ServiceRequestError
  | ServiceResponseError, ServiceResponseError
  | HttpResponseError, HttpResponseError
  | ClientAuthenticationError, ClientAuthenticationError
  | DecodeError, DecodeError
  | CosmosHttpResponseError, CosmosHttpResponseError
  | CosmosResourceNotFoundError, CosmosResourceNotFoundError
  | CosmosResourceExistsError, CosmosResourceExistsError
  | CosmosAccessConditionFailedError, CosmosAccessConditionFailedError
  | AttributeError, AttributeError
  | UnicodeDecodeError, UnicodeDecodeError => true
  | OtherException n, OtherException m => String.eqb n m
  | _, _ => false
  end.

(** [issubclass(c, target)]: walk up the (depth at most 3) hierarchy. *)
Fixpoint issubclass_fuel (depth : nat) (c target : ExnClass) : bool :=
  ExnClass_eqb c target ||
  match depth with
  | O => false
  | S d => match base_class c with
           | Some b => issubclass_fuel d b target
           | None => false
           end
  end.

Definition issubclass : ExnClass -> ExnClass -> bool := issubclass_fuel 3.

Record Exn := {
  exn_class : ExnClass;
  exn_message : string;
  exn_response : option HttpResponse
}.

(** [isinstance(e, target)], what an [except target] clause tests. *)
Definition isinstance (e : Exn) (target : ExnClass) : bool :=
  issubclass (exn_class e) target.

(** The outcome of a call that may raise. *)
Inductive Result (A : Type) :=
| Ok (a : A)
| Raise (e : Exn).
Arguments Ok {A} a.
Arguments Raise {A} e.

(** One entry of the retry history. *)
Record RequestHistory := {
  rh_http_request : HttpRequest;
  rh_http_response : option HttpResponse;
  rh_error : option Exn
}.

(** The per-call context: the option mapping, and the retry statistics
    the retry policy leaves in it when the call ends.  The transport the
    context also refers to is the effect handler of the model (see
    [RetryAsync.World]). *)
Record PipelineContext := {
  options : gmap string value;
  context_history : list RequestHistory
}.

Record PipelineRequest := {
  http_request : HttpRequest;
  context : PipelineContext
}.

Record PipelineResponse := {
  resp_http_request : HttpRequest;
  http_response : HttpResponse;
  resp_context : PipelineContext
}.

(** [RetrySettings]: the mutable per-call record of the retry policy. *)
Record RetrySettings := {
  total : Z;
  connect : Z;
  read : Z;
  status : Z;
  backoff : Q;
  max_backoff : Q;
  methods : list string;
  history : list RequestHistory
}.

(** The methods [AsyncRetryPolicy] inherits from the base class
    [RetryPolicy] (module [retry], not part of the embedded sources).
    [increment] returns whether retrying is still active, with the
    settings it has mutated; its second argument is the pipeline response
    on the status path and the pipeline request on the error path. *)
Class RetryPolicy := {
  configure_retries : gmap string value -> RetrySettings;
  is_retry : RetrySettings -> PipelineResponse -> bool;
  increment : RetrySettings -> PipelineResponse + PipelineRequest ->
              option Exn -> bool * RetrySettings;
  get_retry_after : PipelineResponse -> option Q;
  get_backoff_time : RetrySettings -> Q;
  _is_method_retryable : RetrySettings -> HttpRequest -> bool;
  update_context : PipelineContext -> RetrySettings -> PipelineContext
}.

End Core.

(** ** retry_async.py: [AsyncRetryPolicy] *)

Module RetryAsync.
Import Core.

(** What one logical call does to the outside: every call of
    [self.next.send(request)] and every [transport.sleep(seconds)], in
    order. *)
Inductive Event :=
| EvSend (r : Result PipelineResponse)
| EvSleep (seconds : Q).

Section Policy.
(** [self]: the inherited methods. *)
Context {base : RetryPolicy}.
(** [self.next]: the rest of the pipeline, a state machine whose [send]
    either returns a response or raises. *)
Context {NS : Type}.
Variable next_send : NS -> PipelineRequest -> Result PipelineResponse * NS.

Record World := {
  next_state : NS;
  trace : list Event
}.

(** [await transport.sleep(seconds)] *)
Definition transport_sleep (seconds : Q) (w : World) : World :=
  {| next_state := next_state w; trace := trace w ++ [EvSleep seconds] |}.

(** [await self.next.send(request)] *)
Definition await_next_send (request : PipelineRequest) (w : World)
  : Result PipelineResponse * World :=
  let '(r, ns) := next_send (next_state w) request in
  (r, {| next_state := ns; trace := trace w ++ [EvSend r] |}).

(** [_sleep_for_retry]: sleep for the Retry-After value, when there is
    one and it is truthy; report whether it slept. *)
Definition _sleep_for_retry (response : PipelineResponse) (w : World)
  : bool * World :=
  match get_retry_after response with
  | Some retry_after =>
      if truthy_num retry_after
      then (true, transport_sleep retry_after w)
      else (false, w)
  | None => (false, w)
  end.

(** [_sleep_backoff]: returns at once when the backoff is not positive. *)
Definition _sleep_backoff (settings : RetrySettings) (w : World) : World :=
  let backoff := get_backoff_time settings in
  if Qle_bool backoff 0 then w else transport_sleep backoff w.

(** [sleep]; [response=None] is the default of the keyword argument, and
    a pipeline response object is always truthy. *)
Definition sleep (settings : RetrySettings)
           (response : option PipelineResponse) (w : World) : World :=
  match response with
  | Some r =>
      let '(slept, w1) := _sleep_for_retry r w in
      if slept then w1 else _sleep_backoff settings w1
  | None => _sleep_backoff settings w
  end.

(** The last two statements of [send]: update the context of the
    response with the retry statistics and return it. *)
Definition return_response (response : PipelineResponse)
           (retry_settings : RetrySettings) : PipelineResponse :=
  {| resp_http_request := resp_http_request response;
     http_response := http_response response;
     resp_context := update_context (resp_context response) retry_settings |}.

(** The [while retry_active] loop of [send].  One unit of fuel is one
    iteration, that is one attempt; [None] means the fuel ran out with
    the loop still active. *)
Fixpoint send_loop (fuel : nat) (retry_settings : RetrySettings)
         (request : PipelineRequest) (w : World)
  : option (Result PipelineResponse * World) :=
  match fuel with
  | O => None
  | S fuel' =>
      let '(r, w1) := await_next_send request w in
      match r with
      | Ok response =>
          if is_retry retry_settings response then
            let '(retry_active, retry_settings') :=
              increment retry_settings (inl response) None in
            if retry_active then
              send_loop fuel' retry_settings' request
                        (sleep retry_settings' (Some response) w1)
            else Some (Ok (return_response response retry_settings'), w1)
          else Some (Ok (return_response response retry_settings), w1)
      | Raise err =>
          if isinstance err ClientAuthenticationError then
            Some (Raise err, w1)
          else if isinstance err AzureError then
            if _is_method_retryable retry_settings (http_request request) then
              let '(retry_active, retry_settings') :=
                increment retry_settings (inr request) (Some err) in
              if retry_active then
                send_loop fuel' retry_settings' request
                          (sleep retry_settings' None w1)
              else Some (Raise err, w1)
            else Some (Raise err, w1)
          else Some (Raise err, w1)
      end
  end.

(** [send] *)
Definition send (fuel : nat) (request : PipelineRequest) (w : World)
  : option (Result PipelineResponse * World) :=
  let retry_settings := configure_retries (options (context request)) in
  send_loop fuel retry_settings request w.

(** Observations on a trace. *)
Definition is_send (e : Event) : bool :=
  match e with EvSend _ => true | EvSleep _ => false end.

Definition attempts (t : list Event) : nat :=
  List.length (List.filter is_send t).

Fixpoint slept (t : list Event) : list Q :=
  match t with
  | [] => []
  | EvSleep d :: t' => d :: slept t'
  | EvSend _ :: t' => slept t'
  end.

(** Total time asked of the transport. *)
Definition total_wait (t : list Event) : Q :=
  List.fold_right Qplus 0%Q (slept t).

(** The world after one attempt whose outcome is [r]. *)
Definition after_attempt (w : World) (r : Result PipelineResponse) (ns : NS)
  : World :=
  {| next_state := ns; trace := trace w ++ [EvSend r] |}.

(** An attempt that raised an authentication error. *)
Definition auth_event (e : Event) : bool :=
  match e with
  | EvSend (Raise err) => isinstance err ClientAuthenticationError
  | _ => false
  end.

End Policy.

Arguments World : clear implicits.
Arguments next_state {NS} w.
Arguments trace {NS} w.
Arguments after_attempt {NS} w r ns.

End RetryAsync.


(** ** The base class [RetryPolicy], from the specification

    [AsyncRetryPolicy] inherits its decisions from [RetryPolicy], whose
    module is not among the embedded sources.  This module gives the
    inherited methods as the specification describes them. *)

Module Retry.
Import PyStr Core.

(** [headers.get(name)] on a case-insensitive header mapping. *)
Fixpoint header_get (name : string) (hs : list (string * string)) : option string :=
  match hs with
  | [] => None
  | (k, v) :: hs' =>
      if String.eqb (lower k) (lower name) then Some v else header_get name hs'
  end.

Definition digit_value (c : ascii) : option Z :=
  let n := nat_of_ascii c in
  if (48 <=? n)%nat && (n <=? 57)%nat then Some (Z.of_nat (n - 48)) else None.

Fixpoint parse_digits (acc : Z) (s : string) : option Z :=
  match s with
  | EmptyString => Some acc
  | String c s' =>
      match digit_value c with
      | Some d => parse_digits (10 * acc + d) s'
      | None => None
      end
  end.

(** An integer count of seconds: a non-empty run of decimal digits. *)
Definition parse_seconds (s : string) : option Z :=
  match s with
  | EmptyString => None
  | _ => parse_digits 0 s
  end.

(** Modelled from the spec: the policy-level configuration of [RetryPolicy]
    (module [retry] is missing): the budgets, the backoff factor and cap, the
    retryable statuses and predicate, the retry-safe methods. *)
Record RetryPolicyConfig := {
  total_retries : Z;
  connect_retries : Z;
  read_retries : Z;
  status_retries : Z;
  backoff_factor : Q;
  backoff_max : Q;
  retry_on_status_codes : list Z;
  (** the configured custom predicate on responses *)
  retry_predicate : PipelineResponse -> bool;
  (** the methods without side effects on retry, with those the caller
      marks idempotent *)
  idempotent_methods : list string;
  (** seconds from now until an HTTP-date (it reads the clock) *)
  http_date_delay : string -> option Q
}.

(** Modelled from the spec: the defaults of [RetryPolicy] (module [retry] is
    missing), as the docstring of [AsyncRetryPolicy] documents them (10, 3,
    3, 3, 0.8, 120) and the specification lists them (retryable statuses,
    methods without side effects). *)
Definition default_config : RetryPolicyConfig :=
  {| total_retries := 10;
     connect_retries := 3;
     read_retries := 3;
     status_retries := 3;
     backoff_factor := 8 # 10;
     backoff_max := 120 # 1;
     retry_on_status_codes := [408; 429; 500; 502; 503; 504];
     retry_predicate := fun _ => false;
     idempotent_methods := ["GET"; "HEAD"; "OPTIONS"];
     http_date_delay := fun _ => None |}.

Definition option_int (opts : gmap string value) (key : string) (default : Z) : Z :=
  match opts !! key with
  | Some (VInt n) => n
  | _ => default
  end.

Definition option_float (opts : gmap string value) (key : string) (default : Q) : Q :=
  match opts !! key with
  | Some (VInt n) => inject_Z n
  | Some (VFloat q) => q
  | _ => default
  end.

Section Base.
Variable cfg : RetryPolicyConfig.

(** Modelled from the spec: [RetryPolicy.configure_retries] (module [retry]
    is missing).  RetrySettings is created fresh per logical call from the
    policy-level defaults merged with the call-level overrides
    [retry_total], [retry_connect], [retry_read], [retry_status],
    [retry_backoff_factor] and [retry_backoff_max]; its history is empty. *)
Definition configure_retries (opts : gmap string value) : RetrySettings :=
  {| total := option_int opts "retry_total" (total_retries cfg);
     connect := option_int opts "retry_connect" (connect_retries cfg);
     read := option_int opts "retry_read" (read_retries cfg);
     status := option_int opts "retry_status" (status_retries cfg);
     backoff := option_float opts "retry_backoff_factor" (backoff_factor cfg);
     max_backoff := option_float opts "retry_backoff_max" (backoff_max cfg);
     methods := idempotent_methods cfg;
     history := [] |}.

(** Modelled from the spec: [RetryPolicy.is_retry] (module [retry] is
    missing).  True when the status code is in the retryable set or the
    response matches the configured custom predicate. *)
Definition is_retry (settings : RetrySettings) (response : PipelineResponse) : bool :=
  existsb (Z.eqb (status_code (http_response response))) (retry_on_status_codes cfg)
  || retry_predicate cfg response.

(** Modelled from the spec: the error classes of [RetryPolicy.increment]
    (module [retry] is missing).  Connection-class errors are raised before
    the server began processing, read-class errors after the request was
    sent. *)
Definition is_connection_error (e : Exn) : bool := isinstance e ServiceRequestError.
Definition is_read_error (e : Exn) : bool := isinstance e ServiceResponseError.

Definition history_entry (subject : PipelineResponse + PipelineRequest)
           (error : option Exn) : RequestHistory :=
  match subject with
  | inl response =>
      {| rh_http_request := resp_http_request response;
         rh_http_response := Some (http_response response);
         rh_error := error |}
  | inr request =>
      {| rh_http_request := http_request request;
         rh_http_response := None;
         rh_error := error |}
  end.

(** Modelled from the spec: [RetryPolicy.increment] (module [retry] is
    missing).  The total budget is always decremented, and with it the
    budget of the failure's class (connect, read or status); the attempt
    joins the history; retrying stops as soon as the total budget or the
    budget of the current failure's class is exhausted, that is, was
    already zero. *)
Definition increment (settings : RetrySettings)
           (subject : PipelineResponse + PipelineRequest) (error : option Exn)
  : bool * RetrySettings :=
  let total' := total settings - 1 in
  let h := (history settings ++ [history_entry subject error])%list in
  match error with
  | Some e =>
      if is_connection_error e then
        let connect' := connect settings - 1 in
        ((0 <=? total') && (0 <=? connect'),
         {| total := total'; connect := connect'; read := read settings;
            status := status settings; backoff := backoff settings;
            max_backoff := max_backoff settings; methods := methods settings;
            history := h |})
      else if is_read_error e then
        let read' := read settings - 1 in
        ((0 <=? total') && (0 <=? read'),
         {| total := total'; connect := connect settings; read := read';
            status := status settings; backoff := backoff settings;
            max_backoff := max_backoff settings; methods := methods settings;
            history := h |})
      else
        (0 <=? total',
         {| total := total'; connect := connect settings; read := read settings;
            status := status settings; backoff := backoff settings;
            max_backoff := max_backoff settings; methods := methods settings;
            history := h |})
  | None =>
      let status' := status settings - 1 in
      ((0 <=? total') && (0 <=? status'),
       {| total := total'; connect := connect settings; read := read settings;
          status := status'; backoff := backoff settings;
          max_backoff := max_backoff settings; methods := methods settings;
          history := h |})
  end.

(** Modelled from the spec: [RetryPolicy.get_retry_after] (module [retry] is
    missing).  The Retry-After header, when present, is either an integer
    count of seconds or an HTTP-date; both are parsed. *)
Definition get_retry_after (response : PipelineResponse) : option Q :=
  match header_get "Retry-After" (response_headers (http_response response)) with
  | Some text =>
      match parse_seconds text with
      | Some n => Some (inject_Z n)
      | None => http_date_delay cfg text
      end
  | None => None
  end.

(** Modelled from the spec: the attempt number of the backoff formula
    (module [retry] is missing), counted from the second attempt: the
    number of attempts the history holds. *)
Definition attempt_number (settings : RetrySettings) : Z :=
  Z.of_nat (List.length (history settings)).

(** Python's [min(a, b)]: the first of the two unless the second is
    smaller. *)
Definition py_min (a b : Q) : Q := if Qle_bool a b then a else b.

(** Modelled from the spec: the exponential part of the backoff formula
    (module [retry] is missing), before the cap. *)
Definition exponential_backoff (factor : Q) (n : Z) : Q :=
  (factor * Qpower (2 # 1) (n - 1))%Q.

(** Modelled from the spec: [RetryPolicy.get_backoff_time] (module [retry]
    is missing).  min(cap, backoff_factor * 2^(attempt_number - 1)), the cap
    applied after the exponential computation. *)
Definition get_backoff_time (settings : RetrySettings) : Q :=
  py_min (max_backoff settings)
         (exponential_backoff (backoff settings) (attempt_number settings)).

(** Modelled from the spec: [RetryPolicy._is_method_retryable] (module
    [retry] is missing).  A method is retry-safe when it is one without
    side effects on retry (GET, HEAD, OPTIONS) or one the caller explicitly
    marks idempotent. *)
Definition _is_method_retryable (settings : RetrySettings) (request : HttpRequest) : bool :=
  existsb (String.eqb (method request)) (methods settings).

(** Modelled from the spec: [RetryPolicy.update_context] (module [retry] is
    missing).  The call context receives the final retry statistics. *)
Definition update_context (ctx : PipelineContext) (settings : RetrySettings)
  : PipelineContext :=
  {| options := options ctx; context_history := history settings |}.

(** Modelled from the spec: the base class [RetryPolicy] as a whole (module
    [retry] is missing), assembled from the methods above. *)
Definition retry_policy : RetryPolicy :=
  {| Core.configure_retries := configure_retries;
     Core.is_retry := is_retry;
     Core.increment := increment;
     Core.get_retry_after := get_retry_after;
     Core.get_backoff_time := get_backoff_time;
     Core._is_method_retryable := _is_method_retryable;
     Core.update_context := update_context |}.

End Base.

End Retry.

(** ** A scripted pipeline tail, for running the policy on examples *)

Module Scripted.
Import Core.

(** The next policy replays a list of outcomes, one per call; when the
    script is over every further call fails to connect. *)
Definition refused : Exn :=
  {| exn_class := ServiceRequestError;
     exn_message := "connection refused";
     exn_response := None |}.

Definition next_send (script : list (Result PipelineResponse)) (request : PipelineRequest)
  : Result PipelineResponse * list (Result PipelineResponse) :=
  match script with
  | [] => (Raise refused, [])
  | r :: rest => (r, rest)
  end.

Definition start (script : list (Result PipelineResponse))
  : RetryAsync.World (list (Result PipelineResponse)) :=
  {| RetryAsync.next_state := script; RetryAsync.trace := [] |}.

Definition request_of (m : string) (u : string) (opts : gmap string value)
  : PipelineRequest :=
  {| http_request := {| method := m; url := u; headers := ∅; data := None |};
     context := {| options := opts; context_history := [] |} |}.

Definition response_of (request : PipelineRequest) (code : Z)
           (hs : list (string * string)) : PipelineResponse :=
  {| resp_http_request := http_request request;
     http_response := {| status_code := code; response_headers := hs; body := [] |};
     resp_context := context request |}.

Definition error_of (c : ExnClass) (msg : string) : Exn :=
  {| exn_class := c; exn_message := msg; exn_response := None |}.

End Scripted.

(** ** Python's standard library: [urllib.parse.urlparse], [bytes.decode]

    Models of the two standard-library functions [_Request] calls.
    [urlparse] follows [urllib.parse] of Python 3.7, but for the
    [ValueError] it raises on unbalanced IPv6 brackets: the model returns
    the parse result, and [invalid_ipv6] tells that Python raises.  A
    decoded string is represented by its UTF-8 encoding. *)

Module Urllib.
Import PyStr.

Record ParseResult := {
  scheme : string;
  netloc : string;
  path : string;
  params : string;
  query : string;
  fragment : string
}.

Definition in_range (lo hi : nat) (c : ascii) : bool :=
  let n := nat_of_ascii c in (lo <=? n)%nat && (n <=? hi)%nat.

Definition is_digit (c : ascii) : bool := in_range 48 57 c.

(** [scheme_chars]: letters, digits and [+-.] *)
Definition scheme_char (c : ascii) : bool :=
  in_range 97 122 c || in_range 65 90 c || is_digit c ||
  Ascii.eqb c "+" || Ascii.eqb c "-" || Ascii.eqb c ".".

(** The characters that end the network location. *)
Definition netloc_delim (c : ascii) : bool :=
  Ascii.eqb c "/" || Ascii.eqb c "?" || Ascii.eqb c "#".

(** [if url[:2] == '//': netloc, url = _splitnetloc(url, 2)] *)
Definition split_netloc (url : string) : string * string :=
  match url with
  | String "/" (String "/" rest) => break_at netloc_delim rest
  | _ => (EmptyString, url)
  end.

Definition uses_params : list string :=
  [""; "ftp"; "hdl"; "prospero"; "http"; "imap"; "https"; "shttp"; "rtsp";
   "rtspu"; "sip"; "sips"; "mms"; "sftp"; "tel"].

(** [_splitparams]: the parameters of the last path segment. *)
Definition splitparams (url : string) : string * string :=
  match rpartition "/" url with
  | Some (dir, last) =>
      match partition ";" last with
      | Some (name, ps) => (dir ++ String "/" name, ps)
      | None => (url, EmptyString)
      end
  | None => split_once ";" url
  end.

(** What [urlsplit] and [urlparse] do once the scheme is known. *)
Definition parse_after_scheme (sch url : string) : ParseResult :=
  let '(nl, url1) := split_netloc url in
  let '(url2, frag) := split_once "#" url1 in
  let '(url3, q) := split_once "?" url2 in
  let '(p, ps) :=
    if existsb (String.eqb sch) uses_params && any_char (Ascii.eqb ";") url3
    then splitparams url3 else (url3, EmptyString) in
  {| scheme := sch; netloc := nl; path := p; params := ps;
     query := q; fragment := frag |}.

(** [urlparse(url)] *)
Definition urlparse (url : string) : ParseResult :=
  match partition ":" url with
  | Some (before, rest) =>
      if String.eqb before "" then parse_after_scheme "" url
      else if String.eqb before "http" then parse_after_scheme "http" rest
      else if all_chars scheme_char before
              && (String.eqb rest "" || any_char (fun c => negb (is_digit c)) rest)
      then parse_after_scheme (lower before) rest
      else parse_after_scheme "" url
  | None => parse_after_scheme "" url
  end.

(** [urlsplit] raises [ValueError("Invalid IPv6 URL")] when the network
    location has one of the two brackets and not the other. *)
Definition invalid_ipv6 (r : ParseResult) : bool :=
  (any_char (Ascii.eqb "[") (netloc r) && negb (any_char (Ascii.eqb "]") (netloc r)))
  || (any_char (Ascii.eqb "]") (netloc r) && negb (any_char (Ascii.eqb "[") (netloc r))).

(** [ParseResult.hostname]: the network location without user information
    and port, lower-cased; [None] when empty. *)
Definition hostname (r : ParseResult) : option string :=
  let hostinfo :=
    match rpartition "@" (netloc r) with
    | Some (_, after) => after
    | None => netloc r
    end in
  let host :=
    match partition "[" hostinfo with
    | Some (_, bracketed) =>
        match partition "]" bracketed with
        | Some (h, _) => h
        | None => bracketed
        end
    | None =>
        match partition ":" hostinfo with
        | Some (h, _) => h
        | None => hostinfo
        end
    end in
  if String.eqb host "" then None
  else match partition "%" host with
       | Some (h, zone) => Some (lower h ++ String "%" zone)
       | None => Some (lower host)
       end.

Definition byte_val (b : Byte.byte) : Z := Z.of_N (Byte.to_N b).

Definition between (lo hi : Z) (b : Byte.byte) : bool :=
  (lo <=? byte_val b) && (byte_val b <=? hi).

Definition continuation : Byte.byte -> bool := between 128 191.

(** Well-formed UTF-8 (no overlong forms, no surrogates, at most U+10FFFF). *)
Fixpoint utf8_valid (bs : list Byte.byte) : bool :=
  match bs with
  | [] => true
  | b1 :: r1 =>
      if between 0 127 b1 then utf8_valid r1
      else match r1 with
      | [] => false
      | b2 :: r2 =>
          if between 194 223 b1 then continuation b2 && utf8_valid r2
          else match r2 with
          | [] => false
          | b3 :: r3 =>
              if between 224 239 b1 then
                (if between 224 224 b1 then between 160 191 b2
                 else if between 237 237 b1 then between 128 159 b2
                 else continuation b2)
                && continuation b3 && utf8_valid r3
              else match r3 with
              | [] => false
              | b4 :: r4 =>
                  between 240 244 b1 &&
                  (if between 240 240 b1 then between 144 191 b2
                   else if between 244 244 b1 then between 128 143 b2
                   else continuation b2)
                  && continuation b3 && continuation b4 && utf8_valid r4
              end
          end
      end
  end.

Definition string_of_bytes (bs : list Byte.byte) : string :=
  string_of_list_ascii (List.map ascii_of_byte bs).

(** [data.decode("utf-8")]: [None] stands for [UnicodeDecodeError]. *)
Definition decode_utf8 (bs : list Byte.byte) : option string :=
  if utf8_valid bs then Some (string_of_bytes bs) else None.

End Urllib.

(** ** azure.cosmos: connection policy and request execution *)

Module Cosmos.
Import PyStr Core.

(** The configuration objects of [azure.cosmos.documents], with the
    attributes the embedded functions read and write. *)
Record SSLConfiguration := {
  SSLKeyFile : value;
  SSLCertFile : value;
  SSLCaCerts : value
}.

Record ProxyConfiguration := {
  Host : string;
  Port : Z
}.

Record RetryOptions := {
  _max_retry_attempt_count : Z;
  _fixed_retry_interval_in_milliseconds : option Z;
  _max_wait_time_in_seconds : Z
}.

Record ConnectionPolicy := {
  RequestTimeout : Z;
  MediaRequestTimeout : Z;
  ConnectionMode : Z;
  MediaReadMode : string;
  ProxyConfig : option ProxyConfiguration;
  EnableEndpointDiscovery : bool;
  PreferredLocations : list string;
  UseMultipleWriteLocations : bool;
  DisableSSLVerification : bool;
  SSLConfig : option SSLConfiguration;
  RetryOpts : RetryOptions
}.

(** The keyword arguments [CosmosClient] documents, each at its documented
    type; [None] is a key that is absent (or passed as [None]), [other] holds
    the keys [_build_connection_policy] does not know. *)
Record ClientKwargs := {
  connection_policy : option ConnectionPolicy;
  request_timeout : option Z;
  connection_timeout : option Z;
  media_request_timeout : option Z;
  connection_mode : option Z;
  media_read_mode : option string;
  proxy_config : option ProxyConfiguration;
  enable_endpoint_discovery : option bool;
  preferred_locations : option (list string);
  multiple_write_locations : option bool;
  connection_verify : option value;
  ssl_config : option SSLConfiguration;
  connection_cert : option value;
  retry_options : option RetryOptions;
  retry_total : option Z;
  retry_fixed_interval : option Z;
  retry_backoff_max : option Z;
  other : gmap string value
}.

(** No keyword argument at all. *)
Definition no_kwargs : ClientKwargs :=
  {| connection_policy := None; request_timeout := None;
     connection_timeout := None; media_request_timeout := None;
     connection_mode := None; media_read_mode := None; proxy_config := None;
     enable_endpoint_discovery := None; preferred_locations := None;
     multiple_write_locations := None; connection_verify := None;
     ssl_config := None; connection_cert := None; retry_options := None;
     retry_total := None; retry_fixed_interval := None;
     retry_backoff_max := None; other := ∅ |}.

(** [x or default], for each type of [x]: the default replaces an absent
    and a falsy [x] alike. *)
Definition or_int (x : option Z) (default : Z) : Z :=
  match x with
  | Some n => if n =? 0 then default else n
  | None => default
  end.

Definition or_opt_int (x : option Z) (default : option Z) : option Z :=
  match x with
  | Some n => if n =? 0 then default else Some n
  | None => default
  end.

Definition or_str (x : option string) (default : string) : string :=
  match x with
  | Some s => if String.eqb s "" then default else s
  | None => default
  end.

Definition or_bool (x : option bool) (default : bool) : bool :=
  match x with
  | Some true => true
  | _ => default
  end.

Definition or_list (x : option (list string)) (default : list string) : list string :=
  match x with
  | Some (a :: l) => a :: l
  | _ => default
  end.

Definition or_value (x : option value) (default : value) : value :=
  match x with
  | Some v => if truthy v then v else default
  | None => default
  end.

(** An object is always truthy. *)
Definition or_obj {A : Type} (x : option A) (default : option A) : option A :=
  match x with
  | Some a => Some a
  | None => default
  end.

Definition int_truthy (x : option Z) : bool :=
  match x with
  | Some n => negb (n =? 0)
  | None => false
  end.

(** [_build_connection_policy(kwargs)]: the policy it returns, and [kwargs]
    as the pops leave it.  [new_policy] is what [ConnectionPolicy()]
    constructs.  (The source updates the SSL and retry objects in place; the
    model returns the updated objects inside the policy.) *)
Definition _build_connection_policy (new_policy : ConnectionPolicy)
           (kwargs : ClientKwargs) : ConnectionPolicy * ClientKwargs :=
  let policy :=
    match connection_policy kwargs with
    | Some p => p
    | None => new_policy
    end in
  (* Connection config; the second pop of the chain only runs when the
     first gave a falsy value *)
  let pop_connection_timeout := negb (int_truthy (request_timeout kwargs)) in
  let RequestTimeout' :=
    or_int (request_timeout kwargs)
           (or_int (connection_timeout kwargs) (RequestTimeout policy)) in
  let MediaRequestTimeout' :=
    or_int (media_request_timeout kwargs) (MediaRequestTimeout policy) in
  let ConnectionMode' := or_int (connection_mode kwargs) (ConnectionMode policy) in
  let MediaReadMode' := or_str (media_read_mode kwargs) (MediaReadMode policy) in
  let ProxyConfig' := or_obj (proxy_config kwargs) (ProxyConfig policy) in
  let EnableEndpointDiscovery' :=
    or_bool (enable_endpoint_discovery kwargs) (EnableEndpointDiscovery policy) in
  let PreferredLocations' :=
    or_list (preferred_locations kwargs) (PreferredLocations policy) in
  let UseMultipleWriteLocations' :=
    or_bool (multiple_write_locations kwargs) (UseMultipleWriteLocations policy) in
  (* SSL config *)
  let verify :=
    match connection_verify kwargs with
    | Some v => v
    | None => VNone
    end in
  let DisableSSLVerification' :=
    negb (truthy (match verify with VNone => VBool true | v => v end)) in
  let ssl := or_obj (ssl_config kwargs) (SSLConfig policy) in
  let SSLConfig' :=
    match ssl with
    | Some c =>
        Some {| SSLKeyFile := SSLKeyFile c;
                SSLCertFile := or_value (connection_cert kwargs) (SSLCertFile c);
                SSLCaCerts := if truthy verify then verify else SSLCaCerts c |}
    | None => SSLConfig policy
    end in
  let pop_connection_cert :=
    match ssl with Some _ => true | None => false end in
  (* Retry config *)
  let retry :=
    match retry_options kwargs with
    | Some r => r
    | None => RetryOpts policy
    end in
  let retry' :=
    {| _max_retry_attempt_count :=
         or_int (retry_total kwargs) (_max_retry_attempt_count retry);
       _fixed_retry_interval_in_milliseconds :=
         or_opt_int (retry_fixed_interval kwargs)
                    (_fixed_retry_interval_in_milliseconds retry);
       _max_wait_time_in_seconds :=
         or_int (retry_backoff_max kwargs) (_max_wait_time_in_seconds retry) |} in
  ({| RequestTimeout := RequestTimeout';
      MediaRequestTimeout := MediaRequestTimeout';
      ConnectionMode := ConnectionMode';
      MediaReadMode := MediaReadMode';
      ProxyConfig := ProxyConfig';
      EnableEndpointDiscovery := EnableEndpointDiscovery';
      PreferredLocations := PreferredLocations';
      UseMultipleWriteLocations := UseMultipleWriteLocations';
      DisableSSLVerification := DisableSSLVerification';
      SSLConfig := SSLConfig';
      RetryOpts := retry' |},
   {| connection_policy := None;
      request_timeout := None;
      connection_timeout :=
        if pop_connection_timeout then None else connection_timeout kwargs;
      media_request_timeout := None;
      connection_mode := None;
      media_read_mode := None;
      proxy_config := None;
      enable_endpoint_discovery := None;
      preferred_locations := None;
      multiple_write_locations := None;
      connection_verify := None;
      ssl_config := None;
      connection_cert :=
        if pop_connection_cert then None else connection_cert kwargs;
      retry_options := None;
      retry_total := None;
      retry_fixed_interval := None;
      retry_backoff_max := None;
      other := other kwargs |}).

(** The request parameters [_Request] receives. *)
Record RequestParams := {
  resource_type : string;
  operation_type : string;
  endpoint_override : option string
}.

Record PipelineClient := {
  _base_url : string
}.

(** What [_Request] returns beside the headers: the download stream of a
    streamed media response, the text of a buffered one, the decoded JSON
    document, or [None]. *)
Inductive Payload (JSON : Type) :=
| PStream (response : HttpResponse)
| PText (text : string)
| PJson (document : JSON)
| PNone.
Arguments PStream {JSON} response.
Arguments PText {JSON} text.
Arguments PJson {JSON} document.
Arguments PNone {JSON}.

Section Request.
(** [six.PY2] *)
Variable PY2 : bool.
(** [documents.MediaReadMode.Streamed] *)
Variable Streamed : string.
(** [str(value)] of a header value that is not a string. *)
Variable repr : value -> string.
(** [json.loads]: the document, or the message of the exception raised. *)
Variable JSON : Type.
Variable json_loads : string -> JSON + string.
(** The global endpoint manager: its state and the two methods called. *)
Variable GEM : Type.
Variable refresh_endpoint_list : GEM -> GEM.
Variable resolve_service_endpoint : GEM -> RequestParams -> string.
(** [pipeline_client._pipeline.run(request, **kwargs)]. *)
Variable PS : Type.
Variable pipeline_run :
  PS -> HttpRequest -> gmap string value -> Result PipelineResponse * PS.

(** The state [_Request] works on, with the log of the pipeline runs. *)
Record World := {
  endpoint_manager : GEM;
  pipeline : PS;
  runs : list (HttpRequest * gmap string value)
}.

Definition is_media (u : string) : bool := find "media" u >? -1.

(** [kwargs.pop(key, default)] *)
Definition pop (key : string) (default : value) (kwargs : gmap string value)
  : value * gmap string value :=
  match kwargs !! key with
  | Some v => (v, delete key kwargs)
  | None => (default, kwargs)
  end.

Definition truthy_override (o : option string) : bool :=
  match o with
  | Some s => negb (String.eqb s "")
  | None => false
  end.

(** Lines 101-106: the base URL the request is sent to, and the URL of the
    request after the rewrite. *)
Definition resolve_base_url (gem : GEM) (request_params : RequestParams) : string :=
  match endpoint_override request_params with
  | Some s => if String.eqb s "" then resolve_service_endpoint gem request_params else s
  | None => resolve_service_endpoint gem request_params
  end.

Definition rewrite_url (pipeline_client : PipelineClient) (base_url u : string) : string :=
  if String.eqb base_url (_base_url pipeline_client) then u
  else replace (_base_url pipeline_client) base_url u.

(** Lines 116-120. *)
Definition is_ssl_enabled (parse_result : Urllib.ParseResult)
           (policy : ConnectionPolicy) : bool :=
  negb (bool_decide (Urllib.hostname parse_result = Some "localhost"))
  && negb (bool_decide (Urllib.hostname parse_result = Some "127.0.0.1"))
  && negb (DisableSSLVerification policy).

Definition raise {A : Type} (c : ExnClass) (msg : string)
           (response : option HttpResponse) : Result A :=
  Raise {| exn_class := c; exn_message := msg; exn_response := response |}.

(** [pipeline.run(request, stream=..., connection_timeout=..., ...,
    **kwargs)]: a keyword given twice is a [TypeError] of the call. *)
Definition run_pipeline (request : HttpRequest)
           (explicit : list (string * value)) (kwargs : gmap string value)
           (w : World) : Result PipelineResponse * World :=
  if existsb (fun kv => bool_decide (is_Some (kwargs !! fst kv))) explicit then
    (raise (OtherException "TypeError")
           "run() got multiple values for keyword argument" None, w)
  else
    let all := list_to_map explicit ∪ kwargs in
    let '(r, ps) := pipeline_run (pipeline w) request all in
    (r, {| endpoint_manager := endpoint_manager w;
           pipeline := ps;
           runs := runs w ++ [(request, all)] |}).

(** Lines 143-178: what becomes of the response of the pipeline. *)
Definition handle_response (is_media is_media_stream : bool)
           (response : HttpResponse)
  : Result (Payload JSON * list (string * string)) :=
  let headers := response_headers response in
  if is_media_stream then Ok (PStream response, headers)
  else
    match (if PY2 then Some (Urllib.string_of_bytes (body response))
           else Urllib.decode_utf8 (body response)) with
    | None => raise UnicodeDecodeError "invalid utf-8" None
    | Some data =>
        if status_code response =? 404 then
          raise CosmosResourceNotFoundError data (Some response)
        else if status_code response =? 409 then
          raise CosmosResourceExistsError data (Some response)
        else if status_code response =? 412 then
          raise CosmosAccessConditionFailedError data (Some response)
        else if status_code response >=? 400 then
          raise CosmosHttpResponseError data (Some response)
        else if is_media then Ok (PText data, headers)
        else if negb (String.eqb data "") then
          match json_loads data with
          | inl result => Ok (PJson result, headers)
          | inr e =>
              raise DecodeError ("Failed to decode JSON data: " ++ e) (Some response)
          end
        else Ok (PNone, headers)
    end.

(** Lines 92-96 and 101-112: what [_Request] works out before it calls
    the pipeline. *)
Definition is_media_stream (policy : ConnectionPolicy) (request : HttpRequest) : bool :=
  is_media (url request) && String.eqb (MediaReadMode policy) Streamed.

Definition default_timeout (policy : ConnectionPolicy) (request : HttpRequest) : value :=
  let connection_timeout :=
    if is_media (url request) then MediaRequestTimeout policy
    else RequestTimeout policy in
  VFloat (inject_Z connection_timeout / 1000).

Definition sent_request (pipeline_client : PipelineClient) (base_url : string)
           (request : HttpRequest) : HttpRequest :=
  {| method := method request;
     url := rewrite_url pipeline_client base_url (url request);
     headers := (fun v => VStr (py_str repr v)) <$> headers request;
     data := data request |}.

(** Lines 122-141: the keyword arguments of the pipeline run, and what is
    left of [kwargs] to go with them. *)
Definition pipeline_keywords (policy : ConnectionPolicy)
           (stream is_ssl_enabled : bool) (connection_timeout : value)
           (kwargs : gmap string value)
  : Result (list (string * value) * gmap string value) :=
  if bool_decide (is_Some (SSLConfig policy))
     || bool_decide (is_Some (kwargs !! "connection_cert"))
  then
    match SSLConfig policy with
    | None =>
        raise AttributeError
              "'NoneType' object has no attribute 'SSLCaCerts'" None
    | Some ssl =>
        let ca_certs := SSLCaCerts ssl in
        let cert_files := VTuple (SSLCertFile ssl) (SSLKeyFile ssl) in
        let '(verify, kwargs) := pop "connection_verify" ca_certs kwargs in
        let '(cert, kwargs) := pop "connection_cert" cert_files kwargs in
        Ok ([("stream", VBool stream);
             ("connection_timeout", connection_timeout);
             ("connection_verify", verify);
             ("connection_cert", cert)], kwargs)
    end
  else
    (* If SSL is disabled, verify = false *)
    let '(verify, kwargs) := pop "connection_verify" (VBool is_ssl_enabled) kwargs in
    Ok ([("stream", VBool stream);
         ("connection_timeout", connection_timeout);
         ("connection_verify", verify)], kwargs).

(** [_Request] *)
Definition _Request (request_params : RequestParams)
           (connection_policy : ConnectionPolicy)
           (pipeline_client : PipelineClient) (request : HttpRequest)
           (kwargs : gmap string value) (w : World)
  : Result (Payload JSON * list (string * string)) * World :=
  let is_media := is_media (url request) in
  let is_media_stream := is_media_stream connection_policy request in
  let '(connection_timeout, kwargs) :=
    pop "connection_timeout" (default_timeout connection_policy request) kwargs in
  (* Every request tries to perform a refresh *)
  let gem := refresh_endpoint_list (endpoint_manager w) in
  let w := {| endpoint_manager := gem; pipeline := pipeline w; runs := runs w |} in
  let base_url := resolve_base_url gem request_params in
  let request := sent_request pipeline_client base_url request in
  let parse_result := Urllib.urlparse (url request) in
  let is_ssl_enabled := is_ssl_enabled parse_result connection_policy in
  match pipeline_keywords connection_policy is_media_stream is_ssl_enabled
                          connection_timeout kwargs with
  | Raise e => (Raise e, w)
  | Ok (explicit, kwargs) =>
      let '(response, w) := run_pipeline request explicit kwargs w in
      match response with
      | Raise e => (Raise e, w)
      | Ok response =>
          (handle_response is_media is_media_stream (http_response response), w)
      end
  end.

(** How [urlparse] sees a base URL of the form [scheme://netloc] followed
    by a tail: whether the scheme is one whose last path segment is split
    into parameters, and the tail, which is empty or starts with [/], [?]
    or [#].  [None] for a URL that does not start with a scheme and [//]. *)
Definition base_shape (b : string) : option (bool * string) :=
  match partition ":" b with
  | Some (sch, String "/" (String "/" after)) =>
      if negb (String.eqb sch "") && all_chars Urllib.scheme_char sch
      then Some (existsb (String.eqb (lower sch)) Urllib.uses_params,
                 snd (break_at Urllib.netloc_delim after))
      else None
  | _ => None
  end.

End Request.

Arguments World : clear implicits.
Arguments endpoint_manager {GEM PS} w.
Arguments pipeline {GEM PS} w.
Arguments runs {GEM PS} w.

End Cosmos.

(** ** cosmos_client.py: connection strings, credentials, database links *)

Module CosmosClient.
Import PyStr Core.

(** [s.rstrip(c)] for a one-character set. *)
Fixpoint rstrip (c : ascii) (s : string) : string :=
  match s with
  | EmptyString => EmptyString
  | String a s' =>
      match rstrip c s' with
      | EmptyString => if Ascii.eqb a c then EmptyString else String a EmptyString
      | r => String a r
      end
  end.

(** [s.split(c)]: the segments between the separators, at least one. *)
Fixpoint split (c : ascii) (s : string) : list string :=
  match s with
  | EmptyString => [EmptyString]
  | String a s' =>
      if Ascii.eqb a c then EmptyString :: split c s'
      else match split c s' with
           | seg :: rest => String a seg :: rest
           | [] => [String a EmptyString]
           end
  end.

(** [dict(s.split("=", 1) for s in segments)]: a segment without [=] is a
    sequence of length one, which [dict] refuses ([None], a [ValueError] of
    the interpreter, whose message is given here without the index of the
    segment); a later setting replaces an earlier one of the same name. *)
Fixpoint settings_of (segments : list string) (acc : gmap string string)
  : option (gmap string string) :=
  match segments with
  | [] => Some acc
  | seg :: rest =>
      match partition "=" seg with
      | Some (name, v) => settings_of rest (<[name := v]> acc)
      | None => None
      end
  end.

(** A credential as [CosmosClient] accepts it: nothing, a string (the
    master key), a dictionary, an iterable (a permission feed), or an
    object that is none of these. *)
Inductive Credential :=
| CredNone
| CredStr (s : string)
| CredDict (d : gmap string Credential)
| CredList (l : list Credential)
| CredOther (name : string).

(** [bool(credential)] *)
Definition credential_truthy (c : Credential) : bool :=
  match c with
  | CredNone => false
  | CredStr s => negb (String.eqb s "")
  | CredDict d => negb (Nat.eqb (size d) 0)
  | CredList l => match l with [] => false | _ => true end
  | CredOther _ => true
  end.

Definition value_error {A : Type} (msg : string) : Result A :=
  Cosmos.raise (OtherException "ValueError") msg None.

(** [_parse_connection_str(conn_str, credential)] *)
Definition _parse_connection_str (conn_str : string) (credential : Credential)
  : Result (gmap string string) :=
  let conn_str := rstrip ";" conn_str in
  match settings_of (split ";" conn_str) ∅ with
  | None =>
      value_error "dictionary update sequence element has length 1; 2 is required"
  | Some conn_settings =>
      if negb (bool_decide (is_Some (conn_settings !! "AccountEndpoint"))) then
        value_error "Connection string missing setting 'AccountEndpoint'."
      else if negb (credential_truthy credential)
              && negb (bool_decide (is_Some (conn_settings !! "AccountKey"))) then
        value_error "Connection string missing setting 'AccountKey'."
      else Ok conn_settings
  end.

Definition auth_keys : list string :=
  ["masterKey"; "resourceTokens"; "permissionFeed"].

(** [_build_auth(credential)] *)
Definition _build_auth (credential : Credential) : Result (gmap string Credential) :=
  match credential with
  | CredStr s => Ok {["masterKey" := CredStr s]}
  | CredDict d =>
      if existsb (fun k => bool_decide (is_Some (d !! k))) auth_keys
      then Ok d  (* Backwards compatible *)
      else Ok {["resourceTokens" := CredDict d]}
  | CredList l => Ok {["permissionFeed" := CredList l]}
  | CredNone | CredOther _ =>
      Cosmos.raise (OtherException "TypeError")
        "Unrecognized credential type. Please supply the master key as str, or a dictionary or resource tokens, or a list of permissions."
        None
  end.

(** What [CosmosClient.__init__] works out and hands to the client
    connection: the URL, the authentication dictionary, the connection
    policy and what is left of the keyword arguments (the consistency level
    goes with them as it came). *)
Definition CosmosClient_init (new_policy : Cosmos.ConnectionPolicy)
           (account_url : string) (credential : Credential)
           (kwargs : Cosmos.ClientKwargs)
  : Result (string * gmap string Credential
            * Cosmos.ConnectionPolicy * Cosmos.ClientKwargs) :=
  match _build_auth credential with
  | Raise e => Raise e
  | Ok auth =>
      let '(connection_policy, kwargs) :=
        Cosmos._build_connection_policy new_policy kwargs in
      Ok (account_url, auth, connection_policy, kwargs)
  end.

Definition key_error {A : Type} (key : string) : Result A :=
  Cosmos.raise (OtherException "KeyError") key None.

(** [CosmosClient.from_connection_string(conn_str, credential, **kwargs)] *)
Definition from_connection_string (new_policy : Cosmos.ConnectionPolicy)
           (conn_str : string) (credential : Credential)
           (kwargs : Cosmos.ClientKwargs)
  : Result (string * gmap string Credential
            * Cosmos.ConnectionPolicy * Cosmos.ClientKwargs) :=
  match _parse_connection_str conn_str credential with
  | Raise e => Raise e
  | Ok settings =>
      match settings !! "AccountEndpoint" with
      | None => key_error "AccountEndpoint"
      | Some account_url =>
          if credential_truthy credential then
            CosmosClient_init new_policy account_url credential kwargs
          else
            match settings !! "AccountKey" with
            | None => key_error "AccountKey"
            | Some key =>
                CosmosClient_init new_policy account_url (CredStr key) kwargs
            end
      end
  end.

(** What names a database: its id, a database proxy (with its id and
    link), or the dictionary of its properties. *)
Inductive DatabaseRef :=
| DatabaseId (id : string)
| DatabaseProxy (id link : string)
| DatabaseProperties (properties : gmap string string).

(** [CosmosClient._get_database_link(database_or_id)] *)
Definition _get_database_link (database_or_id : DatabaseRef) : Result string :=
  match database_or_id with
  | DatabaseId id => Ok ("dbs/" ++ id)
  | DatabaseProxy _ link => Ok link
  | DatabaseProperties d =>
      match d !! "id" with
      | Some database_id => Ok ("dbs/" ++ database_id)
      | None => key_error "id"
      end
  end.

(** The [id_value] of [CosmosClient.get_database_client(database)]. *)
Definition get_database_client_id (database : DatabaseRef) : Result string :=
  match database with
  | DatabaseProxy id _ => Ok id
  | DatabaseProperties d =>
      match d !! "id" with
      | Some id => Ok id
      | None => key_error "id"
      end
  | DatabaseId id => Ok id
  end.

(** No character of [s] is [c]. *)
Definition free_of (c : ascii) (s : string) : bool :=
  all_chars (fun a => negb (Ascii.eqb a c)) s.

(** The keyword arguments with every falsy option taken out ([0], [""],
    [False], [[]], a falsy certificate); [connection_verify] and the
    configuration objects stay. *)
Definition drop_falsy (kwargs : Cosmos.ClientKwargs) : Cosmos.ClientKwargs :=
  let int x := match x with Some 0 => None | _ => x end in
  let flag (x : option bool) := match x with Some false => None | _ => x end in
  {| Cosmos.connection_policy := Cosmos.connection_policy kwargs;
     Cosmos.request_timeout := int (Cosmos.request_timeout kwargs);
     Cosmos.connection_timeout := int (Cosmos.connection_timeout kwargs);
     Cosmos.media_request_timeout := int (Cosmos.media_request_timeout kwargs);
     Cosmos.connection_mode := int (Cosmos.connection_mode kwargs);
     Cosmos.media_read_mode :=
       match Cosmos.media_read_mode kwargs with
       | Some EmptyString => None
       | x => x
       end;
     Cosmos.proxy_config := Cosmos.proxy_config kwargs;
     Cosmos.enable_endpoint_discovery := flag (Cosmos.enable_endpoint_discovery kwargs);
     Cosmos.preferred_locations :=
       match Cosmos.preferred_locations kwargs with
       | Some [] => None
       | x => x
       end;
     Cosmos.multiple_write_locations := flag (Cosmos.multiple_write_locations kwargs);
     Cosmos.connection_verify := Cosmos.connection_verify kwargs;
     Cosmos.ssl_config := Cosmos.ssl_config kwargs;
     Cosmos.connection_cert :=
       match Cosmos.connection_cert kwargs with
       | Some v => if truthy v then Some v else None
       | None => None
       end;
     Cosmos.retry_options := Cosmos.retry_options kwargs;
     Cosmos.retry_total := int (Cosmos.retry_total kwargs);
     Cosmos.retry_fixed_interval := int (Cosmos.retry_fixed_interval kwargs);
     Cosmos.retry_backoff_max := int (Cosmos.retry_backoff_max kwargs);
     Cosmos.other := Cosmos.other kwargs |}.

End CosmosClient.

(** ** _synchronized_request.py: the body of a request *)

Module Synchronized.
Import PyStr Core.

(** The [request_data] a caller may pass: nothing, a string, an object
    (with or without a [read] attribute, callable or not), a dict, list or
    tuple, or a value of another type. *)
Inductive RequestData (J : Type) :=
| DataNone
| DataText (s : string)
| DataObject (has_read read_callable : bool)
| DataContainer (c : J)
| DataScalar (v : value).
Arguments DataNone {J}.
Arguments DataText {J} s.
Arguments DataObject {J} has_read read_callable.
Arguments DataContainer {J} c.
Arguments DataScalar {J} v.

(** The body of the request: [None], a string, or a readable stream. *)
Inductive Body :=
| BodyNone
| BodyText (s : string)
| BodyStream.

(** [_is_readable_stream(obj)] *)
Definition _is_readable_stream {J : Type} (obj : RequestData J) : bool :=
  match obj with
  | DataObject true true => true
  | _ => false
  end.

(** [_request_body_from_data(data)]; [json_dumps] is
    [json.dumps(data, separators=(",", ":"))]. *)
Definition _request_body_from_data {J : Type} (json_dumps : J -> string)
           (data : RequestData J) : Body :=
  match data with
  | DataNone => BodyNone
  | DataText s => BodyText s
  | DataContainer c => BodyText (json_dumps c)
  | _ => if _is_readable_stream data then BodyStream else BodyNone
  end.

(** Modelled from the spec: the headers of a request are a mapping with
    case-insensitive semantics (the class [HttpRequest] is not part of the
    embedded sources).  [headers[name] = v] replaces the entry for [name],
    in whatever spelling it is there, by one in the spelling given. *)
Definition set_header (name : string) (v : value)
           (headers : gmap string value) : gmap string value :=
  <[name := v]> (filter (fun kv => lower kv.1 <> lower name) headers).

(** The mapping has [v] under [name] and nothing under another spelling of
    [name]. *)
Definition header_is (name : string) (v : value)
           (headers : gmap string value) : Prop :=
  headers !! name = Some v /\
  forall other, lower other = lower name -> other <> name ->
                headers !! other = None.

(** [len(s)] for a Python 3 string: the number of its characters, that is,
    of the bytes of its UTF-8 encoding that are not continuation bytes. *)
Definition utf8_len (s : string) : Z :=
  Z.of_nat (List.length
              (List.filter
                 (fun c => negb (Urllib.continuation (byte_of_ascii c)))
                 (list_ascii_of_string s))).

(** Lines 212-216 of [SynchronizedRequest]: the body is set from the data,
    and the Content-Length header from the body.  [ContentLength] is
    [http_constants.HttpHeaders.ContentLength], and [len] is Python's
    [len] on the text of the body: characters of a unicode string, bytes
    of a Python 2 [str]. *)
Definition content_length_headers (len : string -> Z) (ContentLength : string)
           (headers : gmap string value) (body : Body) : gmap string value :=
  match body with
  | BodyText s =>
      if negb (String.eqb s "")
      then set_header ContentLength (VInt (len s)) headers
      else headers
  | BodyNone => set_header ContentLength (VInt 0) headers
  | BodyStream => headers
  end.

Definition SynchronizedRequest_prepare {J : Type} (json_dumps : J -> string)
           (len : string -> Z) (ContentLength : string)
           (headers : gmap string value)
           (request_data : RequestData J) : Body * gmap string value :=
  let body := _request_body_from_data json_dumps request_data in
  (body, content_length_headers len ContentLength headers body).

End Synchronized.

(** ** The shape of the trace of a logical call *)

Module RetryTrace.
Import Core RetryAsync.

(** A run of attempts, each but the last followed by at most one sleep:
    the events the retry loop adds. *)
Fixpoint run_shape (t : list Event) : bool :=
  match t with
  | [EvSend _] => true
  | EvSend _ :: EvSleep _ :: ((EvSend _ :: _) as rest) => run_shape rest
  | EvSend _ :: ((EvSend _ :: _) as rest) => run_shape rest
  | _ => false
  end.

(** The outcome of the last attempt of a trace. *)
Fixpoint last_outcome (t : list Event) : option (Result PipelineResponse) :=
  match t with
  | [] => None
  | e :: t' =>
      match last_outcome t' with
      | Some r => Some r
      | None => match e with EvSend r => Some r | EvSleep _ => None end
      end
  end.

(** What the caller gets for the outcome of an attempt: the error itself,
    or the response with nothing but its context changed. *)
Definition same_outcome (attempt result : Result PipelineResponse) : Prop :=
  match attempt, result with
  | Raise e, Raise e' => e = e'
  | Ok r, Ok r' =>
      http_response r' = http_response r /\
      resp_http_request r' = resp_http_request r
  | _, _ => False
  end.

End RetryTrace.

(** ** Sample inputs

    Concrete requests, responses and collaborators on which the properties
    below are instantiated. *)

Module Samples.
Import Core.

(** The retry policy with the documented defaults. *)
Definition policy : RetryPolicy := Retry.retry_policy Retry.default_config.

Definition get_request : PipelineRequest :=
  Scripted.request_of "GET" "https://example.invalid/items" ∅.

Definition post_request : PipelineRequest :=
  Scripted.request_of "POST" "https://example.invalid/items" ∅.

Definition single_attempt_request : PipelineRequest :=
  Scripted.request_of "GET" "https://example.invalid/items"
                      {["retry_total" := VInt 0]}.

Definition throttled : PipelineResponse :=
  Scripted.response_of get_request 429 [].

Definition throttled_retry_after (seconds : string) : PipelineResponse :=
  Scripted.response_of get_request 429 [("Retry-After", seconds)].


Definition auth_failure : Exn :=
  Scripted.error_of ClientAuthenticationError "authentication failed".

Definition read_failure : Exn :=
  Scripted.error_of ServiceResponseError "connection reset while reading".

(** The settings of a default call, fresh and before its first retry. *)
Definition fresh_settings : RetrySettings :=
  Retry.configure_retries Retry.default_config ∅.

Definition first_retry_settings : RetrySettings :=
  snd (Retry.increment fresh_settings (inl throttled) None).

Definition second_retry_settings : RetrySettings :=
  snd (Retry.increment first_retry_settings (inl throttled) None).


(** Cosmos: a pipeline that answers every run with the same response, an
    endpoint manager that resolves every request to one endpoint. *)
Definition answer (code : Z) (content : list Byte.byte) : HttpResponse :=
  {| status_code := code; response_headers := []; body := content |}.

Definition constant_pipeline (r : HttpResponse) (ps : unit) (request : HttpRequest)
           (kwargs : gmap string value) : Result PipelineResponse * unit :=
  (Ok {| resp_http_request := request;
         http_response := r;
         resp_context := {| options := ∅; context_history := [] |} |}, ps).

Definition resolve_to (endpoint : string) (params : Cosmos.RequestParams) : string :=
  endpoint.

Definition read_params : Cosmos.RequestParams :=
  {| Cosmos.resource_type := "docs";
     Cosmos.operation_type := "Read";
     Cosmos.endpoint_override := None |}.

Definition default_retry_options : Cosmos.RetryOptions :=
  {| Cosmos._max_retry_attempt_count := 9;
     Cosmos._fixed_retry_interval_in_milliseconds := None;
     Cosmos._max_wait_time_in_seconds := 30 |}.

Definition default_connection_policy : Cosmos.ConnectionPolicy :=
  {| Cosmos.RequestTimeout := 60000;
     Cosmos.MediaRequestTimeout := 300000;
     Cosmos.ConnectionMode := 0;
     Cosmos.MediaReadMode := "Buffered";
     Cosmos.ProxyConfig := None;
     Cosmos.EnableEndpointDiscovery := true;
     Cosmos.PreferredLocations := [];
     Cosmos.UseMultipleWriteLocations := false;
     Cosmos.DisableSSLVerification := false;
     Cosmos.SSLConfig := None;
     Cosmos.RetryOpts := default_retry_options |}.

Definition emulator_client : Cosmos.PipelineClient :=
  {| Cosmos._base_url := "https://localhost:8081" |}.

Definition emulator_request : HttpRequest :=
  {| method := "GET"; url := "https://localhost:8081/dbs/db1";
     headers := ∅; data := None |}.

Definition account_client : Cosmos.PipelineClient :=
  {| Cosmos._base_url := "https://acct.documents.azure.com" |}.

Definition start : Cosmos.World string unit :=
  {| Cosmos.endpoint_manager := "";
     Cosmos.pipeline := tt;
     Cosmos.runs := [] |}.

(** [CosmosClient(url, credential, retry_total=0)]: the one keyword. *)
Definition retry_total_zero : Cosmos.ClientKwargs :=
  {| Cosmos.connection_policy := None; Cosmos.request_timeout := None;
     Cosmos.connection_timeout := None; Cosmos.media_request_timeout := None;
     Cosmos.connection_mode := None; Cosmos.media_read_mode := None;
     Cosmos.proxy_config := None; Cosmos.enable_endpoint_discovery := None;
     Cosmos.preferred_locations := None;
     Cosmos.multiple_write_locations := None;
     Cosmos.connection_verify := None; Cosmos.ssl_config := None;
     Cosmos.connection_cert := None; Cosmos.retry_options := None;
     Cosmos.retry_total := Some 0; Cosmos.retry_fixed_interval := None;
     Cosmos.retry_backoff_max := None; Cosmos.other := ∅ |}.

Definition account_request : HttpRequest :=
  {| method := "GET"; url := "https://acct.documents.azure.com/dbs/db1?x=1";
     headers := ∅; data := None |}.

(** A URL whose query quotes the account's own base URL. *)
Definition quoting_url : string :=
  "https://acct.documents.azure.com/dbs/db1?ref=https://acct.documents.azure.com".

(** A URL of another host whose query quotes the account's base URL, a URL
    of the account whose last path segment has a parameter, and a client
    whose base URL has no scheme. *)
Definition referring_url : string :=
  "https://proxy.example.com/dbs/db1?ref=https://acct.documents.azure.com".

Definition versioned_url : string :=
  "https://acct.documents.azure.com/dbs/db1;v=1".

Definition bare_host_client : Cosmos.PipelineClient :=
  {| Cosmos._base_url := "acct.documents.azure.com" |}.

(** The keyword arguments of a caller who asks for verification. *)
Definition verification_on : gmap string value :=
  {["connection_verify" := VBool true]}.

(** The account as its URL is usually written, with port and trailing
    slash. *)
Definition account_port_client : Cosmos.PipelineClient :=
  {| Cosmos._base_url := "https://acct.documents.azure.com:443/" |}.

(** The keyword arguments of the pipeline run for [emulator_request], and
    the pipeline response a constant pipeline gives it. *)
Definition emulator_keywords : gmap string value :=
  list_to_map [("stream", VBool false);
               ("connection_timeout", VFloat (inject_Z 60000 / 1000));
               ("connection_verify", VBool false)] ∪ ∅.

Definition emulator_answer (r : HttpResponse) : PipelineResponse :=
  {| resp_http_request := emulator_request;
     http_response := r;
     resp_context := {| options := ∅; context_history := [] |} |}.

(** [_Request] with these collaborators, on Python 3. *)
Definition request_on (endpoint : string) (r : HttpResponse) :=
  Cosmos._Request false "Streamed" (fun _ => "") string inl
                  string (fun g => g) (fun _ => resolve_to endpoint)
                  unit (constant_pipeline r).

End Samples.

(** ** More sample inputs *)

Module MoreSamples.
Import Core.

Definition ok_response : PipelineResponse :=
  Scripted.response_of Samples.get_request 200 [].

(** An exception from outside the [AzureError] hierarchy. *)
Definition foreign_failure : Exn :=
  Scripted.error_of (OtherException "ValueError") "not an Azure error".

(** A call throttled once and answered at the second attempt: its script,
    what it returns and the world it leaves. *)
Definition two_attempts : list (Result PipelineResponse) :=
  [Ok Samples.throttled; Ok ok_response].

Definition two_attempts_result : Result PipelineResponse :=
  Ok (RetryAsync.return_response (base := Samples.policy) ok_response
        Samples.first_retry_settings).

Definition two_attempts_world : RetryAsync.World (list (Result PipelineResponse)) :=
  {| RetryAsync.next_state := [];
     RetryAsync.trace :=
       [RetryAsync.EvSend (Ok Samples.throttled);
        RetryAsync.EvSleep (8 # 10);
        RetryAsync.EvSend (Ok ok_response)] |}.


(** Cosmos: a policy that streams media, a policy with an SSL
    configuration, a media request, a request with mixed headers. *)
Definition streamed_policy : Cosmos.ConnectionPolicy :=
  {| Cosmos.RequestTimeout := 60000;
     Cosmos.MediaRequestTimeout := 300000;
     Cosmos.ConnectionMode := 0;
     Cosmos.MediaReadMode := "Streamed";
     Cosmos.ProxyConfig := None;
     Cosmos.EnableEndpointDiscovery := true;
     Cosmos.PreferredLocations := [];
     Cosmos.UseMultipleWriteLocations := false;
     Cosmos.DisableSSLVerification := false;
     Cosmos.SSLConfig := None;
     Cosmos.RetryOpts := Samples.default_retry_options |}.

Definition ssl_files : Cosmos.SSLConfiguration :=
  {| Cosmos.SSLKeyFile := VStr "client.key";
     Cosmos.SSLCertFile := VStr "client.pem";
     Cosmos.SSLCaCerts := VStr "ca.pem" |}.

Definition ssl_policy : Cosmos.ConnectionPolicy :=
  {| Cosmos.RequestTimeout := 60000;
     Cosmos.MediaRequestTimeout := 300000;
     Cosmos.ConnectionMode := 0;
     Cosmos.MediaReadMode := "Buffered";
     Cosmos.ProxyConfig := None;
     Cosmos.EnableEndpointDiscovery := true;
     Cosmos.PreferredLocations := [];
     Cosmos.UseMultipleWriteLocations := false;
     Cosmos.DisableSSLVerification := false;
     Cosmos.SSLConfig := Some ssl_files;
     Cosmos.RetryOpts := Samples.default_retry_options |}.

Definition media_request : HttpRequest :=
  {| method := "GET"; url := "https://localhost:8081/media/abc";
     headers := ∅; data := None |}.

Definition media_keywords : gmap string value :=
  list_to_map [("stream", VBool true);
               ("connection_timeout", VFloat (inject_Z 300000 / 1000));
               ("connection_verify", VBool false)] ∪ ∅.

Definition ssl_keywords : gmap string value :=
  list_to_map [("stream", VBool false);
               ("connection_timeout", VFloat (inject_Z 60000 / 1000));
               ("connection_verify", VStr "ca.pem");
               ("connection_cert", VTuple (VStr "client.pem") (VStr "client.key"))]
  ∪ ∅.

Definition headed_request : HttpRequest :=
  {| method := "POST"; url := "https://localhost:8081/dbs";
     headers := {["Content-Length" := VInt 2; "x-ms-version" := VStr "2018-12-31"]};
     data := Some "{}" |}.

Definition headed_request_sent : HttpRequest :=
  {| method := "POST"; url := "https://localhost:8081/dbs";
     headers := {["Content-Length" := VStr ""; "x-ms-version" := VStr "2018-12-31"]};
     data := Some "{}" |}.

Definition answer_of (request : HttpRequest) (r : HttpResponse) : PipelineResponse :=
  {| resp_http_request := request;
     http_response := r;
     resp_context := {| options := ∅; context_history := [] |} |}.

(** The bytes of the JSON text of an empty object. *)
Definition empty_object : list Byte.byte := [Byte.x7b; Byte.x7d].

(** Keyword arguments of the client: a request timeout beside a connection
    timeout; a certificate without an SSL configuration. *)
Definition both_timeouts : Cosmos.ClientKwargs :=
  {| Cosmos.connection_policy := None; Cosmos.request_timeout := Some 5000;
     Cosmos.connection_timeout := Some 7000;
     Cosmos.media_request_timeout := None;
     Cosmos.connection_mode := None; Cosmos.media_read_mode := None;
     Cosmos.proxy_config := None; Cosmos.enable_endpoint_discovery := Some false;
     Cosmos.preferred_locations := None;
     Cosmos.multiple_write_locations := None;
     Cosmos.connection_verify := None; Cosmos.ssl_config := None;
     Cosmos.connection_cert := Some (VStr "client.pem");
     Cosmos.retry_options := None;
     Cosmos.retry_total := None; Cosmos.retry_fixed_interval := None;
     Cosmos.retry_backoff_max := None; Cosmos.other := ∅ |}.

Definition connection_timeout_only : Cosmos.ClientKwargs :=
  {| Cosmos.connection_policy := None; Cosmos.request_timeout := None;
     Cosmos.connection_timeout := Some 7000;
     Cosmos.media_request_timeout := None;
     Cosmos.connection_mode := None; Cosmos.media_read_mode := None;
     Cosmos.proxy_config := None; Cosmos.enable_endpoint_discovery := None;
     Cosmos.preferred_locations := None;
     Cosmos.multiple_write_locations := None;
     Cosmos.connection_verify := None; Cosmos.ssl_config := None;
     Cosmos.connection_cert := None; Cosmos.retry_options := None;
     Cosmos.retry_total := None; Cosmos.retry_fixed_interval := None;
     Cosmos.retry_backoff_max := None; Cosmos.other := ∅ |}.

(** A connection string with a base64 key, and its two settings. *)
Definition endpoint : string := "https://acct.documents.azure.com:443/".
Definition account_key : string := "c2VjcmV0LWtleQ==".

Definition connection_string : string :=
  "AccountEndpoint=https://acct.documents.azure.com:443/;AccountKey=c2VjcmV0LWtleQ==".

Definition connection_settings : gmap string string :=
  <["AccountKey" := account_key]> (<["AccountEndpoint" := endpoint]> ∅).

(** Headers with a Content-Length in lower case, headers with a version
    header, and the text of a JSON string holding one accented letter (two
    bytes in UTF-8). *)
Definition stale_length_headers : gmap string value :=
  {["content-length" := VStr "7"]}.

Definition version_headers : gmap string value :=
  {["x-ms-version" := VStr "2018-12-31"]}.

Definition accented_text : string :=
  String "034" (String "195" (String "169" (String "034" ""))).

End MoreSamples.

(** * Properties of the retry policy *)

Local Open Scope list_scope.

Section RetryProperties.
Import Core RetryAsync.
Context {base : RetryPolicy} {NS : Type}.
Variable next_send : NS -> PipelineRequest -> Result PipelineResponse * NS.

Lemma await_next_send_eq request w r ns :
  next_send (next_state w) request = (r, ns) ->
  await_next_send next_send request w = (r, after_attempt w r ns).
Proof. intros H. unfold await_next_send. now rewrite H. Qed.

(** [sleep] adds at most one event to the trace, and it is a sleep. *)
Lemma sleep_trace settings response (w : World NS) :
  next_state (sleep settings response w) = next_state w /\
  exists zs, trace (sleep settings response w) = trace w ++ zs /\
             Forall (fun e => auth_event e = false) zs.
Proof.
  unfold sleep, _sleep_for_retry, _sleep_backoff, transport_sleep.
  destruct response as [r|].
  - destruct (get_retry_after r) as [ra|]; [destruct (truthy_num ra)|];
      simpl; try destruct (Qle_bool _ _); simpl; split; trivial;
      first [ exists []; rewrite app_nil_r; split; [reflexivity | constructor]
            | eexists [_]; split; [reflexivity | repeat constructor] ].
  - destruct (Qle_bool _ _); simpl; split; trivial;
      first [ exists []; rewrite app_nil_r; split; [reflexivity | constructor]
            | eexists [_]; split; [reflexivity | repeat constructor] ].
Qed.

(** An event found behind a prefix without authentication errors lies in
    what follows that prefix. *)
Lemma auth_event_after_prefix (l1 l2 pre post : list Event) e :
  Forall (fun x => auth_event x = false) l1 ->
  auth_event e = true ->
  l1 ++ l2 = pre ++ e :: post ->
  exists pre', pre = l1 ++ pre' /\ l2 = pre' ++ e :: post.
Proof.
  intros Hl1 He. revert pre.
  induction Hl1 as [|x l1 Hx Hl1 IH]; intros pre Heq; simpl in *.
  - exists pre. auto.
  - destruct pre as [|p pre]; simpl in Heq; injection Heq as Hhd Htl.
    + subst x. congruence.
    + subst p. destruct (IH pre Htl) as (pre' & -> & ->).
      exists pre'. auto.
Qed.

(** The events a returned run of the loop has added: an authentication
    error among them is the last one, and it is the result. *)
Lemma send_loop_auth_last fuel :
  forall settings request (w w' : World NS) res,
    send_loop next_send fuel settings request w = Some (res, w') ->
    exists added,
      trace w' = trace w ++ added /\
      forall pre e post,
        added = pre ++ e :: post -> auth_event e = true ->
        post = [] /\ e = EvSend res.
Proof.
  induction fuel as [|fuel IH]; intros settings request w w' res Hrun;
    [discriminate|].
  cbn [send_loop] in Hrun.
  destruct (next_send (next_state w) request) as [r ns] eqn:Hnext.
  rewrite (await_next_send_eq _ _ _ _ Hnext) in Hrun.
  cbv beta iota in Hrun.
  assert (Hstop : forall res0,
             (auth_event (EvSend r) = true -> r = res0) ->
             Some (res0, after_attempt w r ns) = Some (res, w') ->
             exists added,
               trace w' = trace w ++ added /\
               forall pre e post,
                 added = pre ++ e :: post -> auth_event e = true ->
                 post = [] /\ e = EvSend res).
  { intros res0 Hres Heq. injection Heq as <- <-.
    exists [EvSend r]. split; [reflexivity|].
    intros pre e post Hdec He.
    destruct pre as [|p [|q pre]]; simpl in Hdec; try discriminate.
    injection Hdec as <- <-. split; [reflexivity|].
    now rewrite (Hres He). }
  assert (Hgo : forall settings' response,
             auth_event (EvSend r) = false ->
             send_loop next_send fuel settings' request
                       (sleep settings' response (after_attempt w r ns))
             = Some (res, w') ->
             exists added,
               trace w' = trace w ++ added /\
               forall pre e post,
                 added = pre ++ e :: post -> auth_event e = true ->
                 post = [] /\ e = EvSend res).
  { intros settings' response Hr Hrec.
    destruct (IH _ _ _ _ _ Hrec) as (added & Htr & Hlast).
    destruct (sleep_trace settings' response (after_attempt w r ns))
      as (_ & zs & Hzs & Hnoauth).
    rewrite Hzs in Htr. simpl in Htr.
    exists ((EvSend r :: zs) ++ added). split.
    - rewrite Htr. now rewrite <- !app_assoc.
    - intros pre e post Hdec He.
      destruct (auth_event_after_prefix (EvSend r :: zs) added pre post e)
        as (pre' & _ & Hadded); auto.
      eapply Hlast; eauto. }
  destruct r as [response|err].
  - destruct (is_retry settings response).
    + destruct (increment settings (inl response) None) as [[|] settings'].
      * eapply (Hgo settings' (Some response)); [reflexivity | exact Hrun].
      * eapply Hstop; [discriminate | exact Hrun].
    + eapply Hstop; [discriminate | exact Hrun].
  - destruct (isinstance err ClientAuthenticationError) eqn:Hauth.
    + eapply Hstop; [reflexivity | exact Hrun].
    + assert (Hne : auth_event (EvSend (Raise err)) = true ->
                    @Raise PipelineResponse err = Raise err) by reflexivity.
      destruct (isinstance err AzureError);
        [destruct (_is_method_retryable settings (http_request request));
         [destruct (increment settings (inr request) (Some err)) as [[|] settings']|]|].
      * eapply (Hgo settings' None); [exact Hauth | exact Hrun].
      * eapply Hstop; [exact Hne | exact Hrun].
      * eapply Hstop; [exact Hne | exact Hrun].
      * eapply Hstop; [exact Hne | exact Hrun].
Qed.

(** C1.  An authentication error ([ClientAuthenticationError]) raised by
    an attempt propagates at once, whatever the retry settings hold: from
    any state of the loop the call returns it with that attempt as its only
    new event (no further attempt, no sleep); and in every completed call an
    attempt that raised an authentication error is the last event of the
    trace and its error is what the call raised. *)
Theorem send_authentication_error_propagates :
  (forall fuel settings request (w : World NS) err ns,
      next_send (next_state w) request = (Raise err, ns) ->
      isinstance err ClientAuthenticationError = true ->
      send_loop next_send (S fuel) settings request w =
      Some (Raise err, after_attempt w (Raise err) ns)) /\
  (forall fuel request (w w' : World NS) res pre post err,
      send next_send fuel request w = Some (res, w') ->
      trace w' = trace w ++ pre ++ EvSend (Raise err) :: post ->
      isinstance err ClientAuthenticationError = true ->
      post = [] /\ res = Raise err).
Proof.
  split.
  - intros fuel settings request w err ns Hnext Hauth. simpl.
    rewrite (await_next_send_eq _ _ _ _ Hnext). now rewrite Hauth.
  - intros fuel request w w' res pre post err Hrun Htrace Hauth.
    unfold send in Hrun.
    destruct (send_loop_auth_last _ _ _ _ _ _ Hrun) as (added & Htr & Hlast).
    rewrite Htr in Htrace. apply app_inv_head in Htrace.
    destruct (Hlast _ _ _ Htrace Hauth) as [-> Heq].
    split; [reflexivity|]. now injection Heq.
Qed.


(** C5.  When the method of the request is not retry-safe
    ([_is_method_retryable] answers false, as for a POST the caller has not
    marked idempotent), an error raised by the attempt, a read-class error
    included, is raised at once: one attempt, no sleep, whatever budgets the
    settings still hold. *)
Theorem send_non_idempotent_error_not_retried :
  forall fuel settings request (w : World NS) err ns,
    next_send (next_state w) request = (Raise err, ns) ->
    _is_method_retryable settings (http_request request) = false ->
    send_loop next_send (S fuel) settings request w =
    Some (Raise err, after_attempt w (Raise err) ns).
Proof.
  intros fuel settings request w err ns Hnext Hmethod.
  cbn [send_loop]. rewrite (await_next_send_eq _ _ _ _ Hnext).
  cbv beta iota. rewrite Hmethod.
  now destruct (isinstance err ClientAuthenticationError),
               (isinstance err AzureError).
Qed.

Lemma truthy_num_zero (q : Q) : (q == 0)%Q -> truthy_num q = false.
Proof.
  intros H. unfold truthy_num. apply Qeq_bool_iff in H. now rewrite H.
Qed.

(** When the response carries a Retry-After value that is not zero,
    [sleep] asks the transport for exactly that duration and for nothing
    else: the exponential backoff is not consulted. *)
Theorem sleep_retry_after_nonzero :
  forall settings response v (w : World NS),
    get_retry_after response = Some v ->
    ~ (v == 0)%Q ->
    sleep settings (Some response) w = transport_sleep v w /\
    trace (sleep settings (Some response) w) = trace w ++ [EvSleep v].
Proof.
  intros settings response v w Hra Hnz.
  assert (Ht : truthy_num v = true).
  { unfold truthy_num. destruct (Qeq_bool v 0) eqn:E; [|reflexivity].
    apply Qeq_bool_iff in E. contradiction. }
  unfold sleep, _sleep_for_retry. rewrite Hra, Ht. split; reflexivity.
Qed.

(** [sleep] on a response whose Retry-After value is zero: the one thing it
    does is what [_sleep_backoff] does. *)
Lemma sleep_zero_retry_after settings response v (w : World NS) :
  get_retry_after response = Some v ->
  (v == 0)%Q ->
  _sleep_for_retry response w = (false, w) /\
  sleep settings (Some response) w = _sleep_backoff settings w.
Proof.
  intros Hra Hz. unfold sleep, _sleep_for_retry.
  rewrite Hra, (truthy_num_zero _ Hz). split; reflexivity.
Qed.

(** [_sleep_backoff] asks the transport for the backoff time when it is
    positive, and does nothing otherwise. *)
Lemma sleep_backoff_positive settings (w : World NS) :
  (0 < get_backoff_time settings)%Q ->
  _sleep_backoff settings w = transport_sleep (get_backoff_time settings) w.
Proof.
  intros Hpos. unfold _sleep_backoff.
  destruct (Qle_bool (get_backoff_time settings) 0) eqn:E; [|reflexivity].
  apply Qle_bool_iff in E. exfalso. exact (Qlt_not_le _ _ Hpos E).
Qed.

Lemma sleep_backoff_not_positive settings (w : World NS) :
  (get_backoff_time settings <= 0)%Q -> _sleep_backoff settings w = w.
Proof.
  intros Hle. unfold _sleep_backoff.
  apply Qle_bool_iff in Hle. now rewrite Hle.
Qed.

(** C3.  The code departs from the claim when the Retry-After value is
    zero: the header is there, its value is 0 seconds, and yet, whenever
    the backoff time of the attempt is positive, [sleep] asks the transport
    for the backoff time.  That is the one wait it makes, and the time
    waited is not the Retry-After value. *)
Theorem sleep_retry_after_zero_waits_backoff :
  forall settings response v (w : World NS),
    get_retry_after response = Some v ->
    (v == 0)%Q ->
    (0 < get_backoff_time settings)%Q ->
    sleep settings (Some response) w
    = transport_sleep (get_backoff_time settings) w /\
    trace (sleep settings (Some response) w)
    = trace w ++ [EvSleep (get_backoff_time settings)] /\
    ~ (get_backoff_time settings == v)%Q.
Proof.
  intros settings response v w Hra Hz Hpos.
  rewrite (proj2 (sleep_zero_retry_after settings response v w Hra Hz)).
  rewrite sleep_backoff_positive by assumption.
  split; [reflexivity|]. split; [reflexivity|].
  intros Heq. rewrite Heq, Hz in Hpos. exact (Qlt_irrefl _ Hpos).
Qed.

(** C9.  A Retry-After value of zero is not treated as a wait the server
    asked for: [_sleep_for_retry] reports that it did not sleep and leaves
    the world as it was, and [sleep] goes on as [_sleep_backoff] does, that
    is, it uses the exponential backoff for this attempt: when the backoff
    time is positive the transport is asked to sleep exactly that long,
    once, and when it is not, nothing is asked of the transport. *)
Theorem sleep_retry_after_zero_falls_back :
  forall settings response v (w : World NS),
    get_retry_after response = Some v ->
    (v == 0)%Q ->
    _sleep_for_retry response w = (false, w) /\
    sleep settings (Some response) w = _sleep_backoff settings w /\
    ((0 < get_backoff_time settings)%Q ->
       trace (sleep settings (Some response) w)
       = trace w ++ [EvSleep (get_backoff_time settings)]) /\
    ((get_backoff_time settings <= 0)%Q ->
       sleep settings (Some response) w = w).
Proof.
  intros settings response v w Hra Hz.
  destruct (sleep_zero_retry_after settings response v w Hra Hz) as [Hfor Hsleep].
  split; [exact Hfor|]. split; [exact Hsleep|]. split.
  - intros Hpos. rewrite Hsleep, sleep_backoff_positive by assumption.
    reflexivity.
  - intros Hle. rewrite Hsleep. now apply sleep_backoff_not_positive.
Qed.

End RetryProperties.

(** * The retry policy with the base class of the specification *)

Section SpecRetryProperties.
Import Core RetryAsync.
Variable cfg : Retry.RetryPolicyConfig.
Context {NS : Type}.

Lemma py_min_le_l (a b : Q) : (Retry.py_min a b <= a)%Q.
Proof.
  unfold Retry.py_min. destruct (Qle_bool a b) eqn:E.
  - apply Qle_refl.
  - destruct (Qlt_le_dec b a) as [H|H].
    + now apply Qlt_le_weak.
    + apply Qle_bool_iff in H. congruence.
Qed.

Lemma py_min_le_r (a b : Q) : (Retry.py_min a b <= b)%Q.
Proof.
  unfold Retry.py_min. destruct (Qle_bool a b) eqn:E.
  - now apply Qle_bool_iff.
  - apply Qle_refl.
Qed.

Lemma sleep_backoff_trace (settings : RetrySettings) (w : World NS) :
  let b := Retry.get_backoff_time settings in
  ((0 < b)%Q ->
   trace (_sleep_backoff (base := Retry.retry_policy cfg) settings w)
   = trace w ++ [EvSleep b]) /\
  ((b <= 0)%Q ->
   _sleep_backoff (base := Retry.retry_policy cfg) settings w = w).
Proof.
  unfold _sleep_backoff. cbn [get_backoff_time Retry.retry_policy].
  split; intros Hb.
  - destruct (Qle_bool (Retry.get_backoff_time settings) 0) eqn:E.
    + apply Qle_bool_iff in E. exfalso. eapply Qlt_not_le; eauto.
    + reflexivity.
  - apply Qle_bool_iff in Hb. now rewrite Hb.
Qed.

(** C4.  Without a Retry-After value, [sleep] waits for
    min(cap, factor * 2^(n - 1)), n being the number of the retry: that is
    the one duration it asks of the transport when it is positive; it makes
    no sleep call when it is not, a backoff factor of 0 being such a case.
    The cap bounds the result of the exponential computation. *)
Theorem sleep_backoff_formula :
  forall (settings : RetrySettings) (response : option PipelineResponse)
         (w : World NS),
    match response with
    | Some r => Retry.get_retry_after cfg r = None
    | None => True
    end ->
    let b :=
      Retry.py_min (max_backoff settings)
        (backoff settings * (2 # 1) ^ (Retry.attempt_number settings - 1))%Q in
    let w' := sleep (base := Retry.retry_policy cfg) settings response w in
    ((0 < b)%Q -> trace w' = trace w ++ [EvSleep b]) /\
    ((b <= 0)%Q -> w' = w) /\
    ((backoff settings == 0)%Q -> w' = w) /\
    (b <= max_backoff settings)%Q.
Proof.
  intros settings response w Hnone b w'.
  assert (Hsleep : w' = _sleep_backoff (base := Retry.retry_policy cfg) settings w).
  { subst w'. unfold sleep, _sleep_for_retry.
    destruct response as [r|]; [|reflexivity].
    cbn [get_retry_after Retry.retry_policy]. now rewrite Hnone. }
  destruct (sleep_backoff_trace settings w) as [Hpos Hneg].
  fold (Retry.exponential_backoff (backoff settings) (Retry.attempt_number settings)) in b.
  change (Retry.get_backoff_time settings) with b in Hpos, Hneg.
  rewrite Hsleep. repeat split; auto.
  - intros Hzero. apply Hneg.
    eapply Qle_trans; [apply py_min_le_r|].
    unfold Retry.exponential_backoff. rewrite Hzero, Qmult_0_l. apply Qle_refl.
  - apply py_min_le_l.
Qed.

(** The number of the retry grows by one with each [increment], from zero. *)
Lemma attempt_number_configure opts :
  Retry.attempt_number (Retry.configure_retries cfg opts) = 0.
Proof. reflexivity. Qed.

Lemma attempt_number_increment settings subject error :
  Retry.attempt_number (snd (Retry.increment settings subject error))
  = Retry.attempt_number settings + 1.
Proof.
  unfold Retry.increment, Retry.attempt_number.
  destruct error as [e|];
    [destruct (Retry.is_connection_error e); [|destruct (Retry.is_read_error e)]|];
    cbn [snd history]; rewrite length_app; simpl; lia.
Qed.

(** With a total budget of zero [increment] ends the retries. *)
Lemma increment_total_zero settings subject error :
  total settings = 0 ->
  fst (Retry.increment settings subject error) = false.
Proof.
  intros H. unfold Retry.increment. rewrite H.
  destruct error as [e|];
    [destruct (Retry.is_connection_error e); [|destruct (Retry.is_read_error e)]|];
    reflexivity.
Qed.

(** The retry-policy side of C6: a call configured with [retry_total=0]
    makes exactly one attempt and never sleeps, whatever the attempt
    yields. *)
Lemma send_retry_total_zero_one_attempt
      (next_send : NS -> PipelineRequest -> Result PipelineResponse * NS)
      fuel request (w : World NS) :
  options (context request) !! "retry_total" = Some (VInt 0) ->
  exists res,
    send (base := Retry.retry_policy cfg) next_send (S fuel) request w =
    Some (res, after_attempt w (fst (next_send (next_state w) request))
                             (snd (next_send (next_state w) request))).
Proof.
  intros Hopt. unfold send. cbn [send_loop].
  destruct (next_send (next_state w) request) as [r ns] eqn:Hnext.
  rewrite (await_next_send_eq _ _ _ _ _ Hnext). cbv beta iota.
  cbn [configure_retries is_retry increment _is_method_retryable
       Retry.retry_policy fst snd].
  set (settings := Retry.configure_retries cfg _).
  assert (Htotal : total settings = 0).
  { subst settings. cbn. unfold Retry.option_int. now rewrite Hopt. }
  assert (Hinc : forall subject error,
             exists s', Retry.increment settings subject error = (false, s')).
  { intros subject error.
    pose proof (increment_total_zero settings subject error Htotal) as Hf.
    destruct (Retry.increment settings subject error) as [b s'].
    simpl in Hf. subst b. eauto. }
  destruct r as [response|err].
  - destruct (Retry.is_retry cfg settings response); [|eauto].
    destruct (Hinc (inl response) None) as [s' ->]. eauto.
  - destruct (isinstance err ClientAuthenticationError); [eauto|].
    destruct (isinstance err AzureError); [|eauto].
    destruct (Retry._is_method_retryable settings (http_request request)); [|eauto].
    destruct (Hinc (inr request) (Some err)) as [s' ->]. eauto.
Qed.

End SpecRetryProperties.

(** * Properties of the Python string operations *)

Section StringProperties.
Import PyStr.

Lemma prefix_app (a b : string) : String.prefix a (a ++ b)%string = true.
Proof.
  induction a as [|c a IH]; simpl.
  - now destruct b.
  - destruct (ascii_dec c c); [exact IH | contradiction].
Qed.

Lemma string_app_assoc (a b c : string) :
  ((a ++ b) ++ c = a ++ (b ++ c))%string.
Proof.
  induction a as [|x a IH]; [reflexivity|].
  change (String x (((a ++ b) ++ c))%string = String x (a ++ (b ++ c))%string).
  now f_equal.
Qed.

Lemma replace_skip_pass old new (a r : string) :
  replace_skip old new (String.length a) (a ++ r)%string = replace_skip old new 0 r.
Proof.
  induction a as [|c a IH]; simpl; [reflexivity | exact IH].
Qed.

Lemma replace_prefix old new rest :
  old <> EmptyString ->
  replace old new (old ++ rest)%string = (new ++ replace old new rest)%string.
Proof.
  destruct old as [|c old]; [contradiction|]. intros _.
  unfold replace.
  change (String c old ++ rest)%string with (String c (old ++ rest)%string).
  cbn [replace_skip].
  change (String c (old ++ rest)%string) with (String c old ++ rest)%string.
  rewrite prefix_app.
  cbn [String.length]. rewrite Nat.sub_succ, Nat.sub_0_r.
  now rewrite replace_skip_pass.
Qed.

Lemma replace_absent old new s :
  old <> EmptyString ->
  occurs old s = false ->
  replace old new s = s.
Proof.
  destruct old as [|c old]; [contradiction|]. intros _.
  unfold replace.
  induction s as [|a s IH]; intros Hocc; [reflexivity|].
  cbn [occurs] in Hocc. apply orb_false_iff in Hocc as [Hp Hs].
  cbn [replace_skip]. rewrite Hp. f_equal. exact (IH Hs).
Qed.

Lemma break_at_app p (a r : string) :
  all_chars (fun c => negb (p c)) a = true ->
  break_at p (a ++ r)%string
  = ((a ++ fst (break_at p r))%string, snd (break_at p r)).
Proof.
  induction a as [|c a IH]; intros H.
  - apply surjective_pairing.
  - cbn [all_chars] in H. apply andb_true_iff in H as [Hc Ha].
    apply negb_true_iff in Hc.
    change (String c a ++ r)%string with (String c (a ++ r)%string).
    cbn [break_at]. rewrite Hc, (IH Ha). reflexivity.
Qed.

Lemma partition_inv c s a b :
  partition c s = Some (a, b) ->
  s = (a ++ String c b)%string /\
  all_chars (fun x => negb (Ascii.eqb x c)) a = true.
Proof.
  revert a b. induction s as [|x s IH]; intros a b H; [discriminate|].
  cbn [partition] in H. destruct (Ascii.eqb x c) eqn:E.
  - injection H as <- <-. apply Ascii.eqb_eq in E. subst x. split; reflexivity.
  - destruct (partition c s) as [[a' b']|]; [|discriminate].
    injection H as <- <-. destruct (IH a' b' eq_refl) as [-> Ha].
    split; [reflexivity|]. cbn [all_chars]. now rewrite E, Ha.
Qed.

Lemma partition_app c (a b : string) :
  all_chars (fun x => negb (Ascii.eqb x c)) a = true ->
  partition c (a ++ String c b)%string = Some (a, b).
Proof.
  induction a as [|x a IH]; intros H.
  - change ("" ++ String c b)%string with (String c b).
    cbn [partition]. now rewrite Ascii.eqb_refl.
  - cbn [all_chars] in H. apply andb_true_iff in H as [Hx Ha].
    apply negb_true_iff in Hx.
    change (String x a ++ String c b)%string
      with (String x (a ++ String c b)%string).
    cbn [partition]. now rewrite Hx, (IH Ha).
Qed.

Lemma break_at_inv p s :
  s = (fst (break_at p s) ++ snd (break_at p s))%string /\
  all_chars (fun c => negb (p c)) (fst (break_at p s)) = true.
Proof.
  induction s as [|a s [IH1 IH2]]; [split; reflexivity|].
  cbn [break_at]. destruct (p a) eqn:E; [split; reflexivity|].
  destruct (break_at p s) as [before rest]. cbn [fst snd] in *.
  split.
  - change (String a before ++ rest)%string with (String a (before ++ rest)%string).
    now f_equal.
  - cbn [all_chars]. now rewrite E, IH2.
Qed.

Lemma all_chars_impl (p q : ascii -> bool) s :
  (forall c, p c = true -> q c = true) ->
  all_chars p s = true -> all_chars q s = true.
Proof.
  intros Hpq. induction s as [|c s IH]; [reflexivity|].
  cbn [all_chars]. intros H. apply andb_true_iff in H as [Hc Hs].
  now rewrite (Hpq c Hc), (IH Hs).
Qed.

End StringProperties.

(** * Endpoint failover: the URL rewrite *)

Section UrlProperties.
Import PyStr Urllib.

Lemma scheme_char_not_colon c :
  scheme_char c = true -> negb (Ascii.eqb c ":") = true.
Proof.
  intros H. destruct (Ascii.eqb c ":") eqn:E; [|reflexivity].
  apply Ascii.eqb_eq in E. subst c. discriminate.
Qed.

Lemma urlparse_scheme sch x :
  sch <> EmptyString ->
  all_chars scheme_char sch = true ->
  urlparse (sch ++ String ":" (String "/" (String "/" x)))%string
  = parse_after_scheme (lower sch) (String "/" (String "/" x)).
Proof.
  intros Hne Hsch. unfold urlparse.
  rewrite partition_app
    by (apply (all_chars_impl scheme_char); [exact scheme_char_not_colon | exact Hsch]).
  destruct (String.eqb sch "") eqn:E0.
  { apply String.eqb_eq in E0. contradiction. }
  destruct (String.eqb sch "http") eqn:E1.
  { apply String.eqb_eq in E1. subst sch. reflexivity. }
  rewrite Hsch. reflexivity.
Qed.

Lemma parse_after_scheme_tail l1 l2 n1 n2 rest :
  existsb (String.eqb l1) uses_params = existsb (String.eqb l2) uses_params ->
  all_chars (fun c => negb (netloc_delim c)) n1 = true ->
  all_chars (fun c => negb (netloc_delim c)) n2 = true ->
  let r1 := parse_after_scheme l1 (String "/" (String "/" (n1 ++ rest)%string)) in
  let r2 := parse_after_scheme l2 (String "/" (String "/" (n2 ++ rest)%string)) in
  path r1 = path r2 /\ params r1 = params r2 /\
  query r1 = query r2 /\ fragment r1 = fragment r2.
Proof.
  intros Hu Hn1 Hn2.
  unfold parse_after_scheme, split_netloc. cbv iota.
  rewrite (break_at_app _ n1 rest Hn1), (break_at_app _ n2 rest Hn2), Hu.
  destruct (split_once "#" (snd (break_at netloc_delim rest))) as [url2 frag].
  destruct (split_once "?" url2) as [url3 q].
  destruct (existsb (String.eqb l2) uses_params && any_char (Ascii.eqb ";") url3);
    [destruct (splitparams url3)|]; simpl; auto.
Qed.

Lemma base_shape_inv b u t :
  Cosmos.base_shape b = Some (u, t) ->
  exists sch n,
    b = (sch ++ String ":" (String "/" (String "/" (n ++ t))))%string /\
    sch <> EmptyString /\
    all_chars scheme_char sch = true /\
    all_chars (fun c => negb (netloc_delim c)) n = true /\
    u = existsb (String.eqb (lower sch)) uses_params.
Proof.
  unfold Cosmos.base_shape.
  destruct (partition ":" b) as [[sch after]|] eqn:Ep; [|discriminate].
  destruct after as [|c1 after]; [discriminate|].
  destruct (Ascii.eqb_spec c1 "/") as [->|Hc1].
  2:{ intros H. exfalso. revert H.
      destruct c1 as [[] [] [] [] [] [] [] []]; try discriminate.
      now contradiction Hc1. }
  destruct after as [|c2 after]; [discriminate|].
  destruct (Ascii.eqb_spec c2 "/") as [->|Hc2].
  2:{ intros H. exfalso. revert H.
      destruct c2 as [[] [] [] [] [] [] [] []]; try discriminate.
      now contradiction Hc2. }
  destruct (String.eqb sch "") eqn:E0; [discriminate|].
  destruct (all_chars scheme_char sch) eqn:Es; [|discriminate].
  cbn [negb andb]. intros H. injection H as <- <-.
  destruct (partition_inv _ _ _ _ Ep) as [-> _].
  destruct (break_at_inv netloc_delim after) as [Hsplit Hn].
  exists sch, (fst (break_at netloc_delim after)).
  rewrite <- Hsplit. repeat split; try assumption.
  intros ->. discriminate.
Qed.

(** C7, as amended.  When the URL of the request is the client's base URL
    followed by a remainder in which that base URL does not occur again,
    and the client's and the resolved base URL have the same shape (each a
    scheme, [://] and a network location, followed by the same tail, be it
    nothing or a trailing slash, with schemes that [urlparse] treats alike,
    as it does [http] and [https]), the rewritten URL is the resolved base
    URL followed by the same remainder: path, parameters, query and
    fragment are those of the original URL, only scheme and network
    location change. *)
Theorem rewrite_url_keeps_path_and_query :
  forall (pipeline_client : Cosmos.PipelineClient) (base_url rest : string)
         (shape : bool * string),
    Cosmos.base_shape (Cosmos._base_url pipeline_client) = Some shape ->
    Cosmos.base_shape base_url = Some shape ->
    occurs (Cosmos._base_url pipeline_client) rest = false ->
    let u := (Cosmos._base_url pipeline_client ++ rest)%string in
    let u' := Cosmos.rewrite_url pipeline_client base_url u in
    u' = (base_url ++ rest)%string /\
    path (urlparse u') = path (urlparse u) /\
    params (urlparse u') = params (urlparse u) /\
    query (urlparse u') = query (urlparse u) /\
    fragment (urlparse u') = fragment (urlparse u).
Proof.
  intros client base_url rest [uses t] Hold Hnew Hocc u u'.
  assert (Hu' : u' = (base_url ++ rest)%string).
  { subst u' u. unfold Cosmos.rewrite_url.
    destruct (String.eqb base_url (Cosmos._base_url client)) eqn:E.
    - apply String.eqb_eq in E. now rewrite E.
    - assert (Hne : Cosmos._base_url client <> EmptyString).
      { intros Hempty. rewrite Hempty in Hold. discriminate. }
      rewrite (replace_prefix _ _ _ Hne), (replace_absent _ _ _ Hne Hocc).
      reflexivity. }
  split; [exact Hu'|]. rewrite Hu'. subst u.
  destruct (base_shape_inv _ _ _ Hold) as (s1 & n1 & -> & Hs1 & Hc1 & Hn1 & Hu1).
  destruct (base_shape_inv _ _ _ Hnew) as (s2 & n2 & -> & Hs2 & Hc2 & Hn2 & Hu2).
  assert (Hassoc : forall s n,
             ((s ++ String ":" (String "/" (String "/" (n ++ t)))) ++ rest
              = s ++ String ":" (String "/" (String "/" (n ++ (t ++ rest)))))%string).
  { intros s n. rewrite string_app_assoc.
    change ((String ":" (String "/" (String "/" (n ++ t)))) ++ rest)%string
      with (String ":" (String "/" (String "/" ((n ++ t) ++ rest)))%string).
    now rewrite string_app_assoc. }
  rewrite !Hassoc, !urlparse_scheme by assumption.
  apply parse_after_scheme_tail; [congruence | assumption | assumption].
Qed.

End UrlProperties.

(** * Properties of the Cosmos request executor *)

Section CosmosProperties.
Import Core Cosmos.
Variable PY2 : bool.
Variable Streamed : string.
Variable repr : value -> string.
Variable JSON : Type.
Variable json_loads : string -> JSON + string.
Variable GEM : Type.
Variable refresh_endpoint_list : GEM -> GEM.
Variable resolve_service_endpoint : GEM -> RequestParams -> string.
Variable PS : Type.
Variable pipeline_run :
  PS -> HttpRequest -> gmap string value -> Result PipelineResponse * PS.

Abbreviation Request :=
  (_Request PY2 Streamed repr JSON json_loads GEM refresh_endpoint_list
            resolve_service_endpoint PS pipeline_run).

Lemma pop_absent key default (kwargs : gmap string value) :
  kwargs !! key = None -> pop key default kwargs = (default, kwargs).
Proof. intros H. unfold pop. now rewrite H. Qed.

(** A run of the pipeline adds one entry to the log, or none when the call
    itself is refused. *)
Lemma run_pipeline_log request explicit kwargs (w : World GEM PS) :
  let out := run_pipeline GEM PS pipeline_run request explicit kwargs w in
  endpoint_manager (snd out) = endpoint_manager w /\
  ((runs (snd out) = runs w /\ exists e, fst out = Raise e) \/
   (exists all,
       runs (snd out) = runs w ++ [(request, all)] /\
       (forall key v, (key, v) ∈ explicit -> NoDup explicit.*1 ->
                      all !! key = Some v) /\
       pipeline_run (pipeline w) request all = (fst out, pipeline (snd out)))).
Proof.
  unfold run_pipeline.
  destruct (existsb _ explicit).
  - simpl. split; [reflexivity|]. left. split; [reflexivity|]. eexists. reflexivity.
  - destruct (pipeline_run (pipeline w) request (list_to_map explicit ∪ kwargs))
      as [r ps] eqn:Hrun.
    simpl. split; [reflexivity|]. right. eexists. split; [reflexivity|].
    split; [|exact Hrun].
    intros key v Hin Hnd. apply lookup_union_Some_l.
    now apply elem_of_list_to_map_1.
Qed.

(** The keyword arguments without an SSL configuration, a certificate or a
    verification override. *)
Lemma pipeline_keywords_plain policy stream enabled timeout (kwargs : gmap string value) :
  SSLConfig policy = None ->
  kwargs !! "connection_cert" = None ->
  pipeline_keywords policy stream enabled timeout kwargs =
  Ok ([("stream", VBool stream); ("connection_timeout", timeout);
       ("connection_verify",
        match kwargs !! "connection_verify" with
        | Some v => v
        | None => VBool enabled
        end)],
      delete "connection_verify" kwargs).
Proof.
  intros Hssl Hcert. unfold pipeline_keywords. rewrite Hssl, Hcert.
  rewrite !bool_decide_eq_false_2 by (intros [? ?]; discriminate).
  cbn [orb]. unfold pop.
  destruct (kwargs !! "connection_verify") eqn:E; [reflexivity|].
  now rewrite delete_id.
Qed.

(** The log after [_Request]: no new entry, or one, for the request as it
    was sent. *)
Lemma Request_log params policy client request kwargs (w : World GEM PS) :
  let out := Request params policy client request kwargs w in
  let sent :=
    sent_request repr client
      (resolve_base_url GEM resolve_service_endpoint
         (refresh_endpoint_list (endpoint_manager w)) params) request in
  (runs (snd out) = runs w /\ exists e, fst out = Raise e) \/
  (exists all r ps,
      runs (snd out) = runs w ++ [(sent, all)] /\
      pipeline_run (pipeline w) sent all = (r, ps) /\
      fst out =
      match r with
      | Raise e => Raise e
      | Ok response =>
          handle_response PY2 JSON json_loads (is_media (url request))
                          (is_media_stream Streamed policy request)
                          (http_response response)
      end /\
      (SSLConfig policy = None -> kwargs !! "connection_cert" = None ->
       all !! "connection_verify" =
       Some match kwargs !! "connection_verify" with
            | Some v => v
            | None => VBool (is_ssl_enabled (Urllib.urlparse (url sent)) policy)
            end)).
Proof.
  intros out sent. subst out. unfold _Request.
  destruct (pop "connection_timeout" (default_timeout policy request) kwargs)
    as [timeout kwargs1] eqn:Hpop.
  fold sent.
  assert (Hk1 : forall key, key <> "connection_timeout" ->
                            kwargs1 !! key = kwargs !! key).
  { intros key Hne. unfold pop in Hpop.
    destruct (kwargs !! "connection_timeout"); injection Hpop as <- <-;
      [now rewrite lookup_delete_ne | reflexivity]. }
  set (enabled := is_ssl_enabled (Urllib.urlparse (url sent)) policy).
  set (w0 := {| endpoint_manager := refresh_endpoint_list (endpoint_manager w);
                pipeline := pipeline w; runs := runs w |}).
  destruct (pipeline_keywords policy (is_media_stream Streamed policy request)
                              enabled timeout kwargs1)
    as [[explicit kwargs2]|e] eqn:Hkw.
  2:{ left. simpl. split; [reflexivity|]. eauto. }
  pose proof (run_pipeline_log sent explicit kwargs2 w0) as Hlog.
  destruct (run_pipeline GEM PS pipeline_run sent explicit kwargs2 w0) as [r w1].
  simpl in Hlog. destruct Hlog as [_ [[Hruns [e He]] | (all & Hruns & Hall & Hrun)]].
  - left. subst r. simpl. split; [exact Hruns|]. eauto.
  - right. exists all, r, (pipeline w1). split; [|split; [|split]].
    + destruct r; exact Hruns.
    + exact Hrun.
    + now destruct r.
    + intros Hssl Hcert.
      rewrite pipeline_keywords_plain in Hkw
        by first [assumption | rewrite Hk1; [assumption | discriminate]].
      injection Hkw as <- <-.
      rewrite <- (Hk1 "connection_verify") by discriminate.
      apply Hall; [set_solver | compute_done].
Qed.


(** Without an SSL configuration, a certificate or a [stream] keyword of
    its own, the call reaches the pipeline. *)
Lemma Request_plain_runs params policy client request kwargs (w : World GEM PS) :
  SSLConfig policy = None ->
  kwargs !! "connection_cert" = None ->
  kwargs !! "stream" = None ->
  exists rq all,
    runs (snd (Request params policy client request kwargs w)) = runs w ++ [(rq, all)].
Proof.
  intros Hssl Hcert Hstream. unfold _Request.
  destruct (pop "connection_timeout" (default_timeout policy request) kwargs)
    as [timeout kwargs1] eqn:Hpop.
  assert (Hk1 : forall key, kwargs1 !! key
                            = if decide ("connection_timeout" = key) then None
                              else kwargs !! key).
  { intros key. unfold pop in Hpop.
    destruct (kwargs !! "connection_timeout") eqn:E; injection Hpop as <- <-.
    - apply lookup_delete.
    - destruct (decide _) as [<-|]; [exact E | reflexivity]. }
  rewrite pipeline_keywords_plain by (try assumption; now rewrite Hk1).
  unfold run_pipeline.
  destruct (existsb _ _) eqn:Hex.
  2:{ destruct (pipeline_run _ _ _) as [[r|e] ps]; simpl; eauto. }
  exfalso.
  - apply existsb_exists in Hex as ((key & v) & Hin & Hsome).
    apply bool_decide_eq_true_1 in Hsome. destruct Hsome as [x Hx]. simpl in Hx.
    rewrite lookup_delete, Hk1 in Hx.
    destruct Hin as [Heq|[Heq|[Heq|[]]]]; injection Heq as <- _;
      simpl in Hx; congruence.
Qed.


(** C10, as amended.  Without an SSL configuration and a [connection_cert]
    keyword, every pipeline run of [_Request] gets a [connection_verify]
    keyword passed with the request as it is; and when none is passed, it
    gets [connection_verify=False] when the host name of the URL sent is
    [localhost] or [127.0.0.1] or [DisableSSLVerification] is set, and
    [connection_verify=True] otherwise.  The pipeline is run exactly once,
    unless [kwargs] brings a [stream] keyword of its own or [urlparse]
    refuses the URL sent. *)
Theorem Request_connection_verify_default :
  forall params policy client request kwargs (w : World GEM PS),
    SSLConfig policy = None ->
    kwargs !! "connection_cert" = None ->
    let out := Request params policy client request kwargs w in
    let sent :=
      sent_request repr client
        (resolve_base_url GEM resolve_service_endpoint
           (refresh_endpoint_list (endpoint_manager w)) params) request in
    let host := Urllib.hostname (Urllib.urlparse (url sent)) in
    exists new,
      runs (snd out) = runs w ++ new /\
      (kwargs !! "stream" = None ->
       Urllib.invalid_ipv6 (Urllib.urlparse (url sent)) = false ->
       length new = 1%nat) /\
      forall rq all,
        In (rq, all) new ->
        (forall v, kwargs !! "connection_verify" = Some v ->
                   all !! "connection_verify" = Some v) /\
        (kwargs !! "connection_verify" = None ->
         host = Some "localhost" \/ host = Some "127.0.0.1" \/
         DisableSSLVerification policy = true ->
         all !! "connection_verify" = Some (VBool false)) /\
        (kwargs !! "connection_verify" = None ->
         host <> Some "localhost" -> host <> Some "127.0.0.1" ->
         DisableSSLVerification policy = false ->
         all !! "connection_verify" = Some (VBool true)).
Proof.
  intros params policy client request kwargs w Hssl Hcert out sent host.
  pose proof (Request_log params policy client request kwargs w) as Hlog.
  fold out in Hlog. cbv zeta in Hlog. fold sent in Hlog.
  destruct Hlog as [[Hruns _] | (all & r & ps & Hruns & _ & _ & Hall)].
  - exists []. rewrite app_nil_r. split; [exact Hruns|]. split.
    + intros Hstream _.
      destruct (Request_plain_runs params policy client request kwargs w
                  Hssl Hcert Hstream) as (rq & all & Hone).
      fold out in Hone. rewrite Hruns in Hone.
      apply (f_equal length) in Hone. rewrite length_app in Hone.
      simpl in Hone. lia.
    + intros rq all [].
  - exists [(sent, all)]. split; [exact Hruns|]. split; [reflexivity|].
    intros rq all' [Heq|[]]. injection Heq as <- <-.
    specialize (Hall Hssl Hcert). split; [|split].
    + intros v Hv. now rewrite Hv in Hall.
    + intros Hverify Hhost. rewrite Hverify in Hall. rewrite Hall.
      unfold is_ssl_enabled. fold host.
      destruct Hhost as [-> | [-> | ->]].
      * reflexivity.
      * rewrite andb_false_r. reflexivity.
      * rewrite andb_false_r. reflexivity.
    + intros Hverify H1 H2 Hd. rewrite Hverify in Hall. rewrite Hall.
      unfold is_ssl_enabled. fold host. rewrite Hd.
      rewrite !bool_decide_eq_false_2 by assumption. reflexivity.
Qed.

End CosmosProperties.

(** * The connection policy of the Cosmos client *)

Section ConnectionPolicyProperties.
Import Cosmos.

(** C6, at its failing input.  [CosmosClient(..., retry_total=0)]: the
    policy built keeps the retry count it had (the zero is taken for an
    absent keyword), and the keyword is gone from [kwargs], so nothing
    downstream sees it either. *)
Theorem build_connection_policy_retry_total_zero :
  forall new_policy : ConnectionPolicy,
    let out := _build_connection_policy new_policy Samples.retry_total_zero in
    _max_retry_attempt_count (RetryOpts (fst out))
    = _max_retry_attempt_count (RetryOpts new_policy) /\
    retry_total (snd out) = None.
Proof. intros new_policy. split; reflexivity. Qed.

(** With the sample defaults the count stays at nine. *)
Example build_connection_policy_retry_total_zero_default :
  _max_retry_attempt_count
    (RetryOpts (fst (_build_connection_policy Samples.default_connection_policy
                                              Samples.retry_total_zero))) = 9.
Proof. reflexivity. Qed.

End ConnectionPolicyProperties.

(** * Counterexamples to the claims that needed amending *)

Section Counterexamples.
Import Core RetryAsync.

(** C7, as stated, fails.  The resolved endpoint ends in a slash the
    client's base URL does not have: the path of the rewritten URL gains a
    leading slash.  When the base URL occurs again in the query, or only
    there, the query is rewritten.  When the resolved endpoint has a scheme
    whose paths [urlparse] does not split into parameters, the path gains
    the parameters.  And between two base URLs without a scheme the text
    replaced is part of the path. *)
Lemma rewrite_url_changes_path_and_query :
  Urllib.path
    (Urllib.urlparse
       (Cosmos.rewrite_url Samples.account_client
          "https://acct-westus.documents.azure.com:443/"
          (url Samples.account_request)))
  <> Urllib.path (Urllib.urlparse (url Samples.account_request)) /\
  Urllib.query
    (Urllib.urlparse
       (Cosmos.rewrite_url Samples.account_client
          "https://acct-westus.documents.azure.com" Samples.quoting_url))
  <> Urllib.query (Urllib.urlparse Samples.quoting_url) /\
  Urllib.query
    (Urllib.urlparse
       (Cosmos.rewrite_url Samples.account_client
          "https://acct-westus.documents.azure.com" Samples.referring_url))
  <> Urllib.query (Urllib.urlparse Samples.referring_url) /\
  Urllib.path
    (Urllib.urlparse
       (Cosmos.rewrite_url Samples.account_client
          "tcp://acct-westus.documents.azure.com" Samples.versioned_url))
  <> Urllib.path (Urllib.urlparse Samples.versioned_url) /\
  Urllib.path
    (Urllib.urlparse
       (Cosmos.rewrite_url Samples.bare_host_client
          "acct-westus.documents.azure.com"
          "acct.documents.azure.com/dbs/db1"))
  <> Urllib.path (Urllib.urlparse "acct.documents.azure.com/dbs/db1").
Proof. repeat split; vm_compute; discriminate. Qed.


(** C10, as stated, fails: no SSL configuration and no certificate, the
    host is [localhost], and the request brings [connection_verify=True]:
    the pipeline is run with [connection_verify=True]. *)
Lemma connection_verify_keyword_wins :
  Cosmos.SSLConfig Samples.default_connection_policy = None /\
  ({["connection_verify" := VBool true]} : gmap string value)
    !! "connection_cert" = None /\
  Urllib.hostname (Urllib.urlparse (url Samples.emulator_request))
  = Some "localhost" /\
  List.map (fun run => snd run !! "connection_verify")
    (Cosmos.runs
       (snd (Samples.request_on "https://localhost:8081"
               (Samples.answer 200 []) Samples.read_params
               Samples.default_connection_policy Samples.emulator_client
               Samples.emulator_request
               {["connection_verify" := VBool true]} Samples.start)))
  = [Some (VBool true)].
Proof. repeat split; vm_compute; reflexivity. Qed.

End Counterexamples.

(** * The properties at the sample inputs *)

Section Instances.
Import Core RetryAsync.

(** C1 at a sample call: the only attempt fails to authenticate; and in a
    call whose second attempt fails to authenticate, after a throttled
    first one and its backoff. *)
Lemma send_authentication_error_propagates_witness :
  send_loop (base := Samples.policy) Scripted.next_send 1
            Samples.fresh_settings Samples.get_request
            (Scripted.start [Raise Samples.auth_failure])
  = Some (Raise Samples.auth_failure,
          after_attempt (Scripted.start [Raise Samples.auth_failure])
                        (Raise Samples.auth_failure) []) /\
  (([] : list Event) = [] /\
   @Raise PipelineResponse Samples.auth_failure = Raise Samples.auth_failure).
Proof.
  split.
  - apply (proj1 (send_authentication_error_propagates
                    (base := Samples.policy) Scripted.next_send));
      reflexivity.
  - apply (proj2 (send_authentication_error_propagates
                    (base := Samples.policy) Scripted.next_send)
                 5%nat Samples.get_request
                 (Scripted.start [Ok Samples.throttled; Raise Samples.auth_failure])
                 {| next_state := [];
                    trace := [EvSend (Ok Samples.throttled); EvSleep (8 # 10);
                              EvSend (Raise Samples.auth_failure)] |}
                 (Raise Samples.auth_failure)
                 [EvSend (Ok Samples.throttled); EvSleep (8 # 10)]
                 [] Samples.auth_failure);
      vm_compute; reflexivity.
Defined.


(** C3 at [Retry-After: 0] before the second retry of a default call: the
    header parses to 0 and the transport sleeps 0.8 * 2^(2-1) = 1.6
    seconds. *)
Lemma sleep_retry_after_zero_waits_backoff_witness :
  get_retry_after (RetryPolicy := Samples.policy)
                  (Samples.throttled_retry_after "0") = Some 0%Q /\
  get_backoff_time (RetryPolicy := Samples.policy)
                   Samples.second_retry_settings = (16 # 10)%Q /\
  trace (sleep (base := Samples.policy) Samples.second_retry_settings
               (Some (Samples.throttled_retry_after "0"))
               (Scripted.start []))
  = [EvSleep (16 # 10)%Q] /\
  ~ (16 # 10 == 0)%Q.
Proof.
  split; [reflexivity|]. split; [reflexivity|].
  exact (proj2 (sleep_retry_after_zero_waits_backoff
                  (base := Samples.policy) Samples.second_retry_settings
                  (Samples.throttled_retry_after "0") 0%Q (Scripted.start [])
                  eq_refl
                  ltac:(reflexivity)
                  ltac:(reflexivity))).
Defined.

(** C9 at [Retry-After: 0] before the second retry of a default call: the
    one thing asked of the transport is a sleep of 1.6 seconds. *)
Lemma sleep_retry_after_zero_falls_back_witness :
  _sleep_for_retry (base := Samples.policy)
                   (Samples.throttled_retry_after "0") (Scripted.start [])
  = (false, Scripted.start []) /\
  sleep (base := Samples.policy) Samples.second_retry_settings
        (Some (Samples.throttled_retry_after "0")) (Scripted.start [])
  = _sleep_backoff (base := Samples.policy) Samples.second_retry_settings
                   (Scripted.start []) /\
  trace (sleep (base := Samples.policy) Samples.second_retry_settings
               (Some (Samples.throttled_retry_after "0")) (Scripted.start []))
  = [EvSleep (16 # 10)%Q].
Proof.
  destruct (sleep_retry_after_zero_falls_back
              (base := Samples.policy) Samples.second_retry_settings
              (Samples.throttled_retry_after "0") 0%Q (Scripted.start [])
              eq_refl ltac:(reflexivity)) as (Hfor & Hsleep & Hpos & _).
  split; [exact Hfor|]. split; [exact Hsleep|].
  exact (Hpos ltac:(reflexivity)).
Defined.

(** C4 at the first retry of a default call, after a 429 without
    Retry-After: min(120, 0.8 * 2^0) = 0.8 seconds. *)
Lemma sleep_backoff_formula_witness :
  trace (sleep (base := Samples.policy) Samples.first_retry_settings
               (Some Samples.throttled) (Scripted.start []))
  = [EvSleep (8 # 10)%Q].
Proof.
  apply (proj1 (sleep_backoff_formula Retry.default_config
                  Samples.first_retry_settings (Some Samples.throttled)
                  (Scripted.start []) eq_refl)).
  reflexivity.
Defined.

(** C5 at a POST whose attempt fails while reading, read budget 3. *)
Lemma send_non_idempotent_error_not_retried_witness :
  read Samples.fresh_settings = 3 /\
  send_loop (base := Samples.policy) Scripted.next_send 1
            Samples.fresh_settings Samples.post_request
            (Scripted.start [Raise Samples.read_failure])
  = Some (Raise Samples.read_failure,
          after_attempt (Scripted.start [Raise Samples.read_failure])
                        (Raise Samples.read_failure) []).
Proof.
  split; [reflexivity|].
  apply (send_non_idempotent_error_not_retried
           (base := Samples.policy) Scripted.next_send);
    reflexivity.
Defined.

(** C7 (amended) at a rewrite from the account's URL, with port and
    trailing slash, to a regional endpoint written the same way. *)
Lemma rewrite_url_keeps_path_and_query_witness :
  Cosmos.rewrite_url Samples.account_port_client
                     "https://acct-westus.documents.azure.com:443/"
                     "https://acct.documents.azure.com:443/dbs/db1?x=1"
  = "https://acct-westus.documents.azure.com:443/dbs/db1?x=1" /\
  Urllib.path
    (Urllib.urlparse
       (Cosmos.rewrite_url Samples.account_port_client
                           "https://acct-westus.documents.azure.com:443/"
                           "https://acct.documents.azure.com:443/dbs/db1?x=1"))
  = "/dbs/db1" /\
  Urllib.query
    (Urllib.urlparse
       (Cosmos.rewrite_url Samples.account_port_client
                           "https://acct-westus.documents.azure.com:443/"
                           "https://acct.documents.azure.com:443/dbs/db1?x=1"))
  = "x=1".
Proof.
  destruct (rewrite_url_keeps_path_and_query
              Samples.account_port_client
              "https://acct-westus.documents.azure.com:443/" "dbs/db1?x=1"
              (true, "/") eq_refl eq_refl eq_refl)
    as (Hurl & Hpath & _ & Hquery & _).
  split; [exact Hurl|]. split; [exact Hpath | exact Hquery].
Defined.


(** C10 (amended) at a request to the local emulator: the one run of the
    pipeline has [connection_verify=False]; and with the keyword
    [connection_verify=True] it has that. *)
Lemma Request_connection_verify_default_witness :
  (exists new,
      Cosmos.runs
        (snd (Samples.request_on "https://localhost:8081"
                (Samples.answer 200 []) Samples.read_params
                Samples.default_connection_policy Samples.emulator_client
                Samples.emulator_request ∅ Samples.start))
      = Cosmos.runs Samples.start ++ new /\
      length new = 1%nat /\
      forall rq all,
        In (rq, all) new -> all !! "connection_verify" = Some (VBool false)) /\
  (exists new,
      Cosmos.runs
        (snd (Samples.request_on "https://localhost:8081"
                (Samples.answer 200 []) Samples.read_params
                Samples.default_connection_policy Samples.emulator_client
                Samples.emulator_request
                Samples.verification_on Samples.start))
      = Cosmos.runs Samples.start ++ new /\
      length new = 1%nat /\
      forall rq all,
        In (rq, all) new -> all !! "connection_verify" = Some (VBool true)).
Proof.
  split.
  - destruct (Request_connection_verify_default
                false "Streamed" (fun _ => "") string inl
                string (fun g => g)
                (fun _ => Samples.resolve_to "https://localhost:8081")
                unit (Samples.constant_pipeline (Samples.answer 200 []))
                Samples.read_params Samples.default_connection_policy
                Samples.emulator_client Samples.emulator_request
                ∅ Samples.start eq_refl
                (lookup_empty "connection_cert"))
      as (new & Hruns & Hone & Hverify).
    exists new. split; [exact Hruns|].
    split; [exact (Hone (lookup_empty "stream") eq_refl)|].
    intros rq all Hin.
    apply (proj1 (proj2 (Hverify rq all Hin)));
      [exact (lookup_empty "connection_verify")|].
    left. vm_compute. reflexivity.
  - assert (Hcert : Samples.verification_on !! "connection_cert" = None)
      by (vm_compute; reflexivity).
    assert (Hstream : Samples.verification_on !! "stream" = None)
      by (vm_compute; reflexivity).
    destruct (Request_connection_verify_default
                false "Streamed" (fun _ => "") string inl
                string (fun g => g)
                (fun _ => Samples.resolve_to "https://localhost:8081")
                unit (Samples.constant_pipeline (Samples.answer 200 []))
                Samples.read_params Samples.default_connection_policy
                Samples.emulator_client Samples.emulator_request
                Samples.verification_on Samples.start eq_refl Hcert)
      as (new & Hruns & Hone & Hverify).
    exists new. split; [exact Hruns|].
    split; [exact (Hone Hstream eq_refl)|].
    intros rq all Hin.
    apply (proj1 (Hverify rq all Hin)). vm_compute. reflexivity.
Defined.

End Instances.

(** * Further properties of the retry loop *)

Section RetryLoopProperties.
Import Core RetryAsync RetryTrace.
Context {base : RetryPolicy} {NS : Type}.
Variable next_send : NS -> PipelineRequest -> Result PipelineResponse * NS.

Lemma isinstance_auth_is_azure err :
  isinstance err ClientAuthenticationError = true ->
  isinstance err AzureError = true.
Proof.
  unfold isinstance. destruct (exn_class err); try discriminate; reflexivity.
Qed.


(** An exception that is not an [AzureError] is caught by no clause of
    [send]: it propagates after the one attempt, whatever the method and
    the budgets. *)
Theorem send_foreign_exception_propagates :
  forall fuel settings request (w : World NS) err ns,
    next_send (next_state w) request = (Raise err, ns) ->
    isinstance err AzureError = false ->
    send_loop next_send (S fuel) settings request w =
    Some (Raise err, after_attempt w (Raise err) ns).
Proof.
  intros fuel settings request w err ns Hnext Hforeign.
  cbn [send_loop]. rewrite (await_next_send_eq _ _ _ _ _ Hnext).
  cbv beta iota. rewrite Hforeign.
  destruct (isinstance err ClientAuthenticationError) eqn:Hauth; [|reflexivity].
  reflexivity.
Qed.


(** The events of one [sleep]. *)
Lemma sleep_events :
  forall settings response (w : World NS),
    next_state (sleep settings response w) = next_state w /\
    (trace (sleep settings response w) = trace w \/
     exists d, ~ (d == 0)%Q /\
               trace (sleep settings response w) = trace w ++ [EvSleep d]).
Proof.
  intros settings response w.
  assert (Hback : next_state (_sleep_backoff settings w) = next_state w /\
                  (trace (_sleep_backoff settings w) = trace w \/
                   exists d, ~ (d == 0)%Q /\
                             trace (_sleep_backoff settings w)
                             = trace w ++ [EvSleep d])).
  { unfold _sleep_backoff.
    destruct (Qle_bool (get_backoff_time settings) 0) eqn:E.
    - auto.
    - split; [reflexivity|]. right. exists (get_backoff_time settings).
      split; [|reflexivity]. intros Hz.
      assert (Hle : (get_backoff_time settings <= 0)%Q)
        by (rewrite Hz; apply Qle_refl).
      apply Qle_bool_iff in Hle. congruence. }
  unfold sleep, _sleep_for_retry.
  destruct response as [r|]; [|exact Hback].
  destruct (get_retry_after r) as [ra|]; [|exact Hback].
  destruct (truthy_num ra) eqn:Ht; [|exact Hback].
  split; [reflexivity|]. right. exists ra. split; [|reflexivity].
  intros Hz. rewrite (truthy_num_zero _ Hz) in Ht. discriminate.
Qed.

(** [sleep] leaves the rest of the pipeline alone and calls the transport
    at most once, never for a wait of zero: the Retry-After sleep and the
    backoff sleep exclude each other. *)
Theorem sleep_one_nonzero_wait_at_most :
  forall settings response (w : World NS),
    next_state (sleep settings response w) = next_state w /\
    (trace (sleep settings response w) = trace w \/
     exists d, ~ (d == 0)%Q /\
               trace (sleep settings response w) = trace w ++ [EvSleep d]).
Proof. exact sleep_events. Qed.

Lemma run_shape_head t :
  run_shape t = true -> exists r t', t = EvSend r :: t'.
Proof.
  destruct t as [|[r|d] t']; simpl; try discriminate. eauto.
Qed.

Lemma last_outcome_app t1 t2 r :
  last_outcome t2 = Some r -> last_outcome (t1 ++ t2) = Some r.
Proof.
  intros H. induction t1 as [|e t1 IH]; simpl; [exact H|]. now rewrite IH.
Qed.

(** What a returned run of the loop has added to the trace. *)
Lemma send_loop_run fuel :
  forall settings request (w w' : World NS) res,
    send_loop next_send fuel settings request w = Some (res, w') ->
    exists added attempt,
      trace w' = trace w ++ added /\
      run_shape added = true /\
      last_outcome added = Some attempt /\
      same_outcome attempt res.
Proof.
  induction fuel as [|fuel IH]; intros settings request w w' res Hrun;
    [discriminate|].
  cbn [send_loop] in Hrun.
  destruct (next_send (next_state w) request) as [r ns] eqn:Hnext.
  rewrite (await_next_send_eq _ _ _ _ _ Hnext) in Hrun.
  cbv beta iota in Hrun.
  assert (Hstop : forall res0,
             same_outcome r res0 ->
             Some (res0, after_attempt w r ns) = Some (res, w') ->
             exists added attempt,
               trace w' = trace w ++ added /\
               run_shape added = true /\
               last_outcome added = Some attempt /\
               same_outcome attempt res).
  { intros res0 Hsame Heq. injection Heq as <- <-.
    exists [EvSend r], r. repeat split; auto. }
  assert (Hgo : forall settings' response,
             send_loop next_send fuel settings' request
                       (sleep settings' response (after_attempt w r ns))
             = Some (res, w') ->
             exists added attempt,
               trace w' = trace w ++ added /\
               run_shape added = true /\
               last_outcome added = Some attempt /\
               same_outcome attempt res).
  { intros settings' response Hrec.
    destruct (IH _ _ _ _ _ Hrec) as (added & attempt & Htr & Hshape & Hlast & Hsame).
    destruct (run_shape_head _ Hshape) as (r1 & t1 & ->).
    destruct (sleep_events settings' response
                (after_attempt w r ns)) as [_ [Hzs | (d & _ & Hzs)]];
      rewrite Hzs in Htr; simpl in Htr.
    - exists (EvSend r :: EvSend r1 :: t1), attempt.
      repeat split; auto.
      + rewrite Htr. now rewrite <- app_assoc.
      + apply (last_outcome_app [EvSend r]). exact Hlast.
    - exists (EvSend r :: EvSleep d :: EvSend r1 :: t1), attempt.
      repeat split; auto.
      + rewrite Htr. now rewrite <- !app_assoc.
      + apply (last_outcome_app [EvSend r; EvSleep d]). exact Hlast. }
  destruct r as [response|err].
  - destruct (is_retry settings response).
    + destruct (increment settings (inl response) None) as [[|] settings'].
      * eapply (Hgo settings' (Some response)); exact Hrun.
      * eapply Hstop; [|exact Hrun]. simpl. auto.
    + eapply Hstop; [|exact Hrun]. simpl. auto.
  - assert (Hsame : same_outcome (@Raise PipelineResponse err) (Raise err))
      by reflexivity.
    destruct (isinstance err ClientAuthenticationError).
    + eapply Hstop; [exact Hsame | exact Hrun].
    + destruct (isinstance err AzureError);
        [destruct (_is_method_retryable settings (http_request request));
         [destruct (increment settings (inr request) (Some err)) as [[|] settings']|]|].
      * eapply (Hgo settings' None); exact Hrun.
      * eapply Hstop; [exact Hsame | exact Hrun].
      * eapply Hstop; [exact Hsame | exact Hrun].
      * eapply Hstop; [exact Hsame | exact Hrun].
Qed.

(** Every completed call leaves a trace of attempts, each but the last
    followed by at most one sleep: it starts and ends with an attempt, and
    never sleeps twice in a row nor after the last attempt. *)
Theorem send_trace_shape :
  forall fuel request (w w' : World NS) res,
    send next_send fuel request w = Some (res, w') ->
    exists added,
      trace w' = trace w ++ added /\ run_shape added = true.
Proof.
  intros fuel request w w' res Hrun. unfold send in Hrun.
  destruct (send_loop_run _ _ _ _ _ _ Hrun) as (added & _ & Htr & Hshape & _).
  eauto.
Qed.

(** What a completed call gives the caller is the outcome of its last
    attempt: the error that attempt raised, or the response it obtained
    with nothing but the context updated. *)
Theorem send_result_is_last_attempt :
  forall fuel request (w w' : World NS) res,
    send next_send fuel request w = Some (res, w') ->
    exists added attempt,
      trace w' = trace w ++ added /\
      last_outcome added = Some attempt /\
      same_outcome attempt res.
Proof.
  intros fuel request w w' res Hrun. unfold send in Hrun.
  destruct (send_loop_run _ _ _ _ _ _ Hrun)
    as (added & attempt & Htr & _ & Hlast & Hsame).
  eauto.
Qed.

End RetryLoopProperties.

(** * Further properties of the Cosmos request executor *)

Section RequestProperties.
Import PyStr Core Cosmos.
Variable PY2 : bool.
Variable Streamed : string.
Variable repr : value -> string.
Variable JSON : Type.
Variable json_loads : string -> JSON + string.
Variable GEM : Type.
Variable refresh_endpoint_list : GEM -> GEM.
Variable resolve_service_endpoint : GEM -> RequestParams -> string.
Variable PS : Type.
Variable pipeline_run :
  PS -> HttpRequest -> gmap string value -> Result PipelineResponse * PS.

Abbreviation Request' :=
  (_Request PY2 Streamed repr JSON json_loads GEM refresh_endpoint_list
            resolve_service_endpoint PS pipeline_run).

Abbreviation sent_by client params request w :=
  (sent_request repr client
     (resolve_base_url GEM resolve_service_endpoint
        (refresh_endpoint_list (endpoint_manager w)) params) request).

Lemma pop_spec key default (kwargs : gmap string value) :
  pop key default kwargs
  = (match kwargs !! key with Some v => v | None => default end,
     delete key kwargs).
Proof.
  unfold pop. destruct (kwargs !! key) eqn:E; [reflexivity|].
  now rewrite delete_id.
Qed.

(** The keyword arguments with an SSL configuration. *)
Lemma pipeline_keywords_ssl policy ssl stream enabled timeout
      (kwargs : gmap string value) :
  SSLConfig policy = Some ssl ->
  pipeline_keywords policy stream enabled timeout kwargs =
  Ok ([("stream", VBool stream); ("connection_timeout", timeout);
       ("connection_verify",
        match kwargs !! "connection_verify" with
        | Some v => v
        | None => SSLCaCerts ssl
        end);
       ("connection_cert",
        match kwargs !! "connection_cert" with
        | Some v => v
        | None => VTuple (SSLCertFile ssl) (SSLKeyFile ssl)
        end)],
      delete "connection_cert" (delete "connection_verify" kwargs)).
Proof.
  intros Hssl. unfold pipeline_keywords. rewrite Hssl.
  rewrite bool_decide_eq_true_2 by eauto. cbn [orb].
  rewrite !pop_spec. rewrite lookup_delete_ne by discriminate. reflexivity.
Qed.

(** [_Request] step by step: the keywords are worked out, then the
    pipeline is run once, then the response is handled. *)
Lemma Request_unfold params policy client request kwargs (w : World GEM PS) :
  let timeout :=
    match kwargs !! "connection_timeout" with
    | Some v => v
    | None => default_timeout policy request
    end in
  let sent := sent_by client params request w in
  let w0 := {| endpoint_manager := refresh_endpoint_list (endpoint_manager w);
               pipeline := pipeline w; runs := runs w |} in
  Request' params policy client request kwargs w =
  match pipeline_keywords policy (is_media_stream Streamed policy request)
          (is_ssl_enabled (Urllib.urlparse (url sent)) policy)
          timeout (delete "connection_timeout" kwargs) with
  | Raise e => (Raise e, w0)
  | Ok (explicit, kwargs2) =>
      let '(response, w1) :=
        run_pipeline GEM PS pipeline_run sent explicit kwargs2 w0 in
      match response with
      | Raise e => (Raise e, w1)
      | Ok response =>
          (handle_response PY2 JSON json_loads (is_media (url request))
             (is_media_stream Streamed policy request)
             (http_response response), w1)
      end
  end.
Proof.
  unfold _Request. rewrite pop_spec. reflexivity.
Qed.

(** The keywords of the one run, when there is one. *)
Lemma Request_run_keywords params policy client request kwargs
      (w : World GEM PS) rq all :
  runs (snd (Request' params policy client request kwargs w))
  = runs w ++ [(rq, all)] ->
  rq = sent_by client params request w /\
  exists explicit kwargs2,
    pipeline_keywords policy (is_media_stream Streamed policy request)
      (is_ssl_enabled (Urllib.urlparse (url rq)) policy)
      (match kwargs !! "connection_timeout" with
       | Some v => v
       | None => default_timeout policy request
       end) (delete "connection_timeout" kwargs)
    = Ok (explicit, kwargs2) /\
    all = list_to_map explicit ∪ kwargs2.
Proof.
  rewrite Request_unfold. cbv zeta.
  set (sent := sent_by client params request w).
  destruct (pipeline_keywords _ _ _ _ _) as [[explicit kwargs2]|e] eqn:Hkw.
  2:{ simpl. intros H. apply (f_equal length) in H.
      rewrite length_app in H. simpl in H. lia. }
  unfold run_pipeline. destruct (existsb _ explicit).
  { simpl. intros H. apply (f_equal length) in H.
    rewrite length_app in H. simpl in H. lia. }
  destruct (pipeline_run _ _ _) as [[r|e] ps]; simpl; intros H;
    apply app_inv_head in H; injection H as <- <-; eauto.
Qed.

Lemma explicit_lookup (explicit : list (string * value))
      (kwargs : gmap string value) key v :
  (key, v) ∈ explicit -> NoDup explicit.*1 ->
  (list_to_map explicit ∪ kwargs) !! key = Some v.
Proof.
  intros Hin Hnd. apply lookup_union_Some_l.
  now apply elem_of_list_to_map_1.
Qed.

(** Every call refreshes the endpoint list, whatever becomes of it. *)
Theorem Request_always_refreshes_endpoints :
  forall params policy client request kwargs (w : World GEM PS),
    endpoint_manager (snd (Request' params policy client request kwargs w))
    = refresh_endpoint_list (endpoint_manager w).
Proof.
  intros params policy client request kwargs w.
  rewrite Request_unfold. cbv zeta.
  destruct (pipeline_keywords _ _ _ _ _) as [[explicit kwargs2]|e];
    [|reflexivity].
  unfold run_pipeline. destruct (existsb _ explicit); [reflexivity|].
  destruct (pipeline_run _ _ _) as [[r|e] ps]; reflexivity.
Qed.

(** The result of a call that obtained a response. *)
Lemma Request_obtained params policy client request kwargs (w : World GEM PS)
      rq all presp ps :
  runs (snd (Request' params policy client request kwargs w))
  = runs w ++ [(rq, all)] ->
  pipeline_run (pipeline w) rq all = (Ok presp, ps) ->
  fst (Request' params policy client request kwargs w)
  = handle_response PY2 JSON json_loads (is_media (url request))
      (is_media_stream Streamed policy request) (http_response presp).
Proof.
  intros Hruns Hrun.
  pose proof (Request_log PY2 Streamed repr JSON json_loads GEM
                refresh_endpoint_list resolve_service_endpoint PS pipeline_run
                params policy client request kwargs w) as Hlog.
  cbv zeta in Hlog.
  destruct Hlog as [[Hsame _] | (all' & r' & ps' & Hruns' & Hrun' & Hout & _)].
  { rewrite Hsame in Hruns. apply (f_equal length) in Hruns.
    rewrite length_app in Hruns. simpl in Hruns. lia. }
  rewrite Hruns in Hruns'. apply app_inv_head in Hruns'.
  injection Hruns' as Hs Ha. subst rq all'.
  rewrite Hrun in Hrun'. injection Hrun' as Hr _. subst r'. exact Hout.
Qed.

(** The response to a streamed media request is handed over as a stream
    with its headers, whatever its status and body: no status is turned
    into an error and nothing is decoded. *)
Theorem Request_streamed_media_skips_status_check :
  forall params policy client request kwargs (w : World GEM PS) rq all presp ps,
    runs (snd (Request' params policy client request kwargs w))
    = runs w ++ [(rq, all)] ->
    pipeline_run (pipeline w) rq all = (Ok presp, ps) ->
    is_media (url request) = true ->
    MediaReadMode policy = Streamed ->
    fst (Request' params policy client request kwargs w)
    = Ok (PStream (http_response presp),
          response_headers (http_response presp)).
Proof.
  intros params policy client request kwargs w rq all presp ps
         Hruns Hrun Hmedia Hmode.
  rewrite (Request_obtained _ _ _ _ _ _ _ _ _ _ Hruns Hrun).
  unfold is_media_stream, handle_response.
  rewrite Hmedia, Hmode, String.eqb_refl. reflexivity.
Qed.

(** What a response below 400 becomes when it is not streamed and its body
    decodes: the text itself for a media request; for any other request
    nothing when the body is empty, else the JSON document, or a
    [DecodeError] with the parser's message and the response. *)
Theorem Request_success_payload :
  forall params policy client request kwargs (w : World GEM PS) rq all presp ps,
    let out := Request' params policy client request kwargs w in
    let r := http_response presp in
    let text := Urllib.string_of_bytes (body r) in
    runs (snd out) = runs w ++ [(rq, all)] ->
    pipeline_run (pipeline w) rq all = (Ok presp, ps) ->
    is_media_stream Streamed policy request = false ->
    PY2 = true \/ Urllib.utf8_valid (body r) = true ->
    status_code r < 400 ->
    (is_media (url request) = true ->
     fst out = Ok (PText text, response_headers r)) /\
    (is_media (url request) = false -> text = "" ->
     fst out = Ok (PNone, response_headers r)) /\
    (forall document,
        is_media (url request) = false -> text <> "" ->
        json_loads text = inl document ->
        fst out = Ok (PJson document, response_headers r)) /\
    (forall message,
        is_media (url request) = false -> text <> "" ->
        json_loads text = inr message ->
        fst out = raise DecodeError
                        ("Failed to decode JSON data: " ++ message)%string
                        (Some r)).
Proof.
  intros params policy client request kwargs w rq all presp ps out r text
         Hruns Hrun Hstream Hdecode Hstatus.
  subst out. rewrite (Request_obtained _ _ _ _ _ _ _ _ _ _ Hruns Hrun).
  rewrite Hstream. unfold handle_response. fold r.
  assert (Htext : (if PY2 then Some (Urllib.string_of_bytes (body r))
                   else Urllib.decode_utf8 (body r)) = Some text).
  { destruct Hdecode as [-> | Hvalid]; [reflexivity|].
    unfold Urllib.decode_utf8. rewrite Hvalid. now destruct PY2. }
  rewrite Htext.
  rewrite !(proj2 (Z.eqb_neq _ _)) by lia.
  rewrite Z.geb_leb, (proj2 (Z.leb_gt _ _)) by lia.
  repeat split.
  - intros ->. reflexivity.
  - intros -> ->. reflexivity.
  - intros document -> Hne Hdoc.
    rewrite (proj2 (String.eqb_neq _ _) Hne). cbn [negb]. now rewrite Hdoc.
  - intros message -> Hne Hmsg.
    rewrite (proj2 (String.eqb_neq _ _) Hne). cbn [negb]. now rewrite Hmsg.
Qed.


(** With an SSL configuration the pipeline is run with the CA bundle of
    the configuration as [connection_verify] and its certificate and key
    files as [connection_cert], unless the keyword arguments bring their own:
    the host name plays no part. *)
Theorem Request_ssl_configuration_keywords :
  forall params policy client request kwargs (w : World GEM PS) ssl rq all,
    SSLConfig policy = Some ssl ->
    runs (snd (Request' params policy client request kwargs w))
    = runs w ++ [(rq, all)] ->
    all !! "connection_verify"
    = Some match kwargs !! "connection_verify" with
           | Some v => v
           | None => SSLCaCerts ssl
           end /\
    all !! "connection_cert"
    = Some match kwargs !! "connection_cert" with
           | Some v => v
           | None => VTuple (SSLCertFile ssl) (SSLKeyFile ssl)
           end.
Proof.
  intros params policy client request kwargs w ssl rq all Hssl Hruns.
  destruct (Request_run_keywords _ _ _ _ _ _ _ _ Hruns)
    as (_ & explicit & kwargs2 & Hkw & ->).
  rewrite (pipeline_keywords_ssl _ _ _ _ _ _ Hssl) in Hkw.
  injection Hkw as <- <-.
  rewrite !lookup_delete_ne by discriminate.
  split; apply explicit_lookup; first [set_solver | compute_done].
Qed.

(** The connection timeout of a run is the [connection_timeout] keyword
    when there is one, else the timeout of the policy in seconds (a
    thousandth of its value): the media timeout for a media request, the
    request timeout for any other. *)
Theorem Request_connection_timeout :
  forall params policy client request kwargs (w : World GEM PS) rq all,
    runs (snd (Request' params policy client request kwargs w))
    = runs w ++ [(rq, all)] ->
    all !! "connection_timeout"
    = Some match kwargs !! "connection_timeout" with
           | Some v => v
           | None =>
               VFloat (inject_Z (if is_media (url request)
                                 then MediaRequestTimeout policy
                                 else RequestTimeout policy) / 1000)
           end.
Proof.
  intros params policy client request kwargs w rq all Hruns.
  destruct (Request_run_keywords _ _ _ _ _ _ _ _ Hruns)
    as (_ & explicit & kwargs2 & Hkw & ->).
  change (VFloat (inject_Z (if is_media (url request)
                            then MediaRequestTimeout policy
                            else RequestTimeout policy) / 1000))
    with (default_timeout policy request).
  destruct (SSLConfig policy) as [ssl|] eqn:Hssl.
  - rewrite (pipeline_keywords_ssl _ _ _ _ _ _ Hssl) in Hkw.
    injection Hkw as <- <-.
    apply explicit_lookup; first [set_solver | compute_done].
  - unfold pipeline_keywords in Hkw. rewrite Hssl in Hkw.
    rewrite (bool_decide_eq_false_2 (is_Some None)) in Hkw
      by (intros [? ?]; discriminate).
    cbn [orb] in Hkw.
    destruct (bool_decide _); [discriminate|].
    rewrite pop_spec in Hkw. injection Hkw as <- <-.
    apply explicit_lookup; first [set_solver | compute_done].
Qed.

(** The request the pipeline gets has the method and body of the request
    given, and the same headers with every value turned into a string: a
    string value is unchanged, no header is added or dropped. *)
Theorem Request_sends_string_headers :
  forall params policy client request kwargs (w : World GEM PS) rq all,
    runs (snd (Request' params policy client request kwargs w))
    = runs w ++ [(rq, all)] ->
    method rq = method request /\ data rq = data request /\
    (forall name, is_Some (headers rq !! name)
                  <-> is_Some (headers request !! name)) /\
    (forall name v, headers rq !! name = Some v -> exists s, v = VStr s) /\
    (forall name s, headers request !! name = Some (VStr s) ->
                    headers rq !! name = Some (VStr s)).
Proof.
  intros params policy client request kwargs w rq all Hruns.
  destruct (Request_run_keywords _ _ _ _ _ _ _ _ Hruns) as (-> & _).
  unfold sent_request. cbn [method data headers].
  split; [reflexivity|]. split; [reflexivity|]. split; [|split].
  - intros name. rewrite lookup_fmap. split.
    + intros [v Hv].
      destruct (headers request !! name); [eauto | discriminate].
    + intros [v ->]. simpl. eauto.
  - intros name v. rewrite lookup_fmap.
    destruct (headers request !! name); simpl; intros H;
      [injection H as <-; eauto | discriminate].
  - intros name s Hs. rewrite lookup_fmap, Hs. reflexivity.
Qed.

End RequestProperties.

(** * Further properties of the URL handling *)

Section UrlHandlingProperties.
Import PyStr Core Cosmos.

Lemma find_from_range sub s i :
  find_from i sub s = -1 \/ i <= find_from i sub s.
Proof.
  revert i. induction s as [|a s IH]; intros i; cbn [find_from].
  - destruct (String.prefix sub ""); [right; lia | left; reflexivity].
  - destruct (String.prefix sub (String a s)); [right; lia|].
    destruct (IH (i + 1)) as [H|H]; [left; exact H | right; lia].
Qed.

Lemma find_from_occurs sub s i :
  0 <= i -> (find_from i sub s >? -1) = occurs sub s.
Proof.
  revert i. induction s as [|a s IH]; intros i Hi; cbn [find_from occurs].
  - destruct (String.prefix sub ""); [|reflexivity].
    cbn [orb]. apply Z.gtb_lt. lia.
  - destruct (String.prefix sub (String a s)).
    + cbn [orb]. apply Z.gtb_lt. lia.
    + cbn [orb]. apply IH. lia.
Qed.

Lemma occurs_app_r sub a b :
  occurs sub b = true -> occurs sub (a ++ b)%string = true.
Proof.
  intros H. induction a as [|c a IH]; [exact H|].
  change (String c a ++ b)%string with (String c (a ++ b)%string).
  cbn [occurs]. rewrite IH. apply orb_true_r.
Qed.

Lemma occurs_prefix sub b : occurs sub (sub ++ b)%string = true.
Proof.
  destruct (sub ++ b)%string eqn:E; cbn [occurs]; rewrite <- E, prefix_app;
    reflexivity.
Qed.

(** A request is a media request as soon as the text [media] occurs anywhere
    in its URL: in the host name, in an id of the path or in the query. *)
Theorem is_media_anywhere_in_url :
  forall u before after : string,
    is_media u = occurs "media" u /\
    is_media (before ++ "media" ++ after)%string = true.
Proof.
  intros u before after.
  assert (H : forall v, is_media v = occurs "media" v)
    by (intros v; apply find_from_occurs; lia).
  split; [apply H|]. rewrite H. apply occurs_app_r, occurs_prefix.
Qed.

(** The URL is left as it is when the base URL resolved is the client's
    own, and also when the client's base URL does not occur in it: then a
    different endpoint resolved has no effect on where the request goes. *)
Theorem rewrite_url_leaves_foreign_urls :
  forall (pipeline_client : PipelineClient) (base_url u : string),
    base_url = _base_url pipeline_client \/
    (_base_url pipeline_client <> "" /\
     occurs (_base_url pipeline_client) u = false) ->
    rewrite_url pipeline_client base_url u = u.
Proof.
  intros client base_url u [-> | [Hne Hocc]]; unfold rewrite_url.
  - now rewrite String.eqb_refl.
  - destruct (String.eqb base_url (_base_url client)); [reflexivity|].
    now apply replace_absent.
Qed.

End UrlHandlingProperties.

(** * Further properties of the connection policy *)

Section ConnectionPolicyKeywords.
Import Cosmos CosmosClient.

Lemma or_int_drop x d :
  or_int (match x with Some 0 => None | _ => x end) d = or_int x d.
Proof. destruct x as [[| |]|]; reflexivity. Qed.

Lemma or_opt_int_drop x d :
  or_opt_int (match x with Some 0 => None | _ => x end) d = or_opt_int x d.
Proof. destruct x as [[| |]|]; reflexivity. Qed.

Lemma or_bool_drop x d :
  or_bool (match x with Some false => None | _ => x end) d = or_bool x d.
Proof. destruct x as [[|]|]; reflexivity. Qed.

(** Apart from [connection_verify], whose [False] turns verification off,
    a falsy value of an option counts as the option not given: the
    timeouts, the connection mode and the retry numbers given as [0], the
    media read mode as [""], the two switches as [False], the preferred
    locations as [[]] and a falsy certificate build the same policy as
    these keywords left out. *)
Theorem build_connection_policy_falsy_is_absent :
  forall new_policy kwargs,
    fst (_build_connection_policy new_policy (drop_falsy kwargs))
    = fst (_build_connection_policy new_policy kwargs).
Proof.
  intros new_policy kwargs.
  unfold _build_connection_policy, drop_falsy.
  cbn [fst connection_policy request_timeout connection_timeout
       media_request_timeout connection_mode media_read_mode proxy_config
       enable_endpoint_discovery preferred_locations multiple_write_locations
       connection_verify ssl_config connection_cert retry_options retry_total
       retry_fixed_interval retry_backoff_max other].
  rewrite !or_int_drop, !or_bool_drop, !or_opt_int_drop.
  f_equal.
  - destruct (media_read_mode kwargs) as [[|]|]; reflexivity.
  - destruct (preferred_locations kwargs) as [[|]|]; reflexivity.
  - destruct (or_obj (ssl_config kwargs) _); [|reflexivity].
    do 2 f_equal. destruct (connection_cert kwargs) as [v|]; [|reflexivity].
    unfold or_value. destruct (truthy v) eqn:E; [now rewrite E | reflexivity].
Qed.

(** The two switches can be turned on by their keyword, never off: once the
    policy has endpoint discovery (or multiple write locations) on, it
    stays on whatever the keyword says. *)
Theorem build_connection_policy_switches_stay_on :
  forall new_policy kwargs,
    let policy :=
      match connection_policy kwargs with
      | Some p => p
      | None => new_policy
      end in
    let built := fst (_build_connection_policy new_policy kwargs) in
    (EnableEndpointDiscovery policy = true ->
     EnableEndpointDiscovery built = true) /\
    (UseMultipleWriteLocations policy = true ->
     UseMultipleWriteLocations built = true).
Proof.
  intros new_policy kwargs policy built. subst built policy.
  unfold _build_connection_policy. cbn [fst EnableEndpointDiscovery
                                        UseMultipleWriteLocations].
  split; intros ->.
  - now destruct (enable_endpoint_discovery kwargs) as [[|]|].
  - now destruct (multiple_write_locations kwargs) as [[|]|].
Qed.

(** SSL verification is decided by the [connection_verify] keyword alone:
    what the policy passed in says is overwritten, so that a policy with
    verification disabled has it enabled again unless the keyword is
    passed too. *)
Theorem build_connection_policy_verification_from_keyword :
  forall new_policy kwargs,
    DisableSSLVerification (fst (_build_connection_policy new_policy kwargs))
    = match connection_verify kwargs with
      | None | Some VNone => false
      | Some v => negb (truthy v)
      end.
Proof.
  intros new_policy kwargs. unfold _build_connection_policy.
  cbn [fst DisableSSLVerification].
  destruct (connection_verify kwargs) as [[]|]; reflexivity.
Qed.

(** [request_timeout] goes before [connection_timeout]: when it is given
    and not zero it becomes the request timeout, and [connection_timeout]
    is then not even taken out of the keyword arguments; otherwise
    [connection_timeout] is consumed, and used when it is not zero. *)
Theorem build_connection_policy_timeout_precedence :
  forall new_policy kwargs,
    let out := _build_connection_policy new_policy kwargs in
    (forall n, request_timeout kwargs = Some n -> n <> 0 ->
               RequestTimeout (fst out) = n /\
               connection_timeout (snd out) = connection_timeout kwargs) /\
    (request_timeout kwargs = None \/ request_timeout kwargs = Some 0 ->
     connection_timeout (snd out) = None /\
     forall n, connection_timeout kwargs = Some n -> n <> 0 ->
               RequestTimeout (fst out) = n).
Proof.
  intros new_policy kwargs out. subst out.
  unfold _build_connection_policy.
  cbn [fst snd RequestTimeout connection_timeout]. split.
  - intros n -> Hn. unfold int_truthy, or_int at 1.
    rewrite (proj2 (Z.eqb_neq _ _) Hn). split; reflexivity.
  - intros Hrt.
    assert (Hfalsy : int_truthy (request_timeout kwargs) = false /\
                     forall d, or_int (request_timeout kwargs) d = d)
      by (destruct Hrt as [-> | ->]; split; reflexivity).
    destruct Hfalsy as [-> Hor]. split; [reflexivity|].
    intros n Hct Hn. rewrite Hor, Hct. unfold or_int.
    now rewrite (proj2 (Z.eqb_neq _ _) Hn).
Qed.

(** A [connection_cert] keyword is only used with an SSL configuration:
    without one, from the keyword or in the policy, the policy built has
    none either and the keyword stays among the keyword arguments. *)
Theorem build_connection_policy_cert_needs_ssl_config :
  forall new_policy kwargs,
    ssl_config kwargs = None ->
    SSLConfig (match connection_policy kwargs with
               | Some p => p
               | None => new_policy
               end) = None ->
    let out := _build_connection_policy new_policy kwargs in
    SSLConfig (fst out) = None /\
    connection_cert (snd out) = connection_cert kwargs.
Proof.
  intros new_policy kwargs Hkw Hpolicy out. subst out.
  unfold _build_connection_policy.
  cbn [fst snd SSLConfig connection_cert].
  rewrite Hkw. cbn [or_obj]. rewrite Hpolicy. split; reflexivity.
Qed.

End ConnectionPolicyKeywords.

(** * Connection strings, credentials and database links *)

Section ConnectionStringProperties.
Import PyStr Core CosmosClient.

Lemma rstrip_free c s :
  s <> "" -> free_of c s = true -> rstrip c s = s.
Proof.
  induction s as [|a s IH]; [contradiction|]. intros _ Hfree.
  cbn [free_of all_chars] in Hfree. apply andb_true_iff in Hfree as [Ha Hs].
  apply negb_true_iff in Ha. cbn [rstrip].
  destruct s as [|b s].
  - cbn [rstrip]. now rewrite Ha.
  - rewrite IH by (discriminate || exact Hs). reflexivity.
Qed.

Lemma rstrip_app c p s :
  s <> "" -> free_of c s = true -> rstrip c (p ++ s)%string = (p ++ s)%string.
Proof.
  intros Hne Hfree. induction p as [|a p IH].
  - now apply rstrip_free.
  - change (String a p ++ s)%string with (String a (p ++ s)%string).
    cbn [rstrip]. rewrite IH.
    destruct (p ++ s)%string eqn:E; [|reflexivity].
    destruct p; [simpl in E; contradiction | discriminate].
Qed.

Lemma rstrip_trailing c s :
  rstrip c (s ++ String c "")%string = rstrip c s.
Proof.
  induction s as [|a s IH].
  - change ("" ++ String c "")%string with (String c "").
    cbn [rstrip]. now rewrite Ascii.eqb_refl.
  - change (String a s ++ String c "")%string
      with (String a (s ++ String c "")%string).
    cbn [rstrip]. now rewrite IH.
Qed.

Lemma split_free c s : free_of c s = true -> split c s = [s].
Proof.
  induction s as [|a s IH]; [reflexivity|]. intros Hfree.
  cbn [free_of all_chars] in Hfree. apply andb_true_iff in Hfree as [Ha Hs].
  apply negb_true_iff in Ha. cbn [split]. rewrite Ha, (IH Hs). reflexivity.
Qed.

Lemma split_app c a b :
  free_of c a = true ->
  split c (a ++ String c b)%string = a :: split c b.
Proof.
  induction a as [|x a IH]; intros Hfree.
  - change ("" ++ String c b)%string with (String c b).
    cbn [split]. now rewrite Ascii.eqb_refl.
  - cbn [free_of all_chars] in Hfree. apply andb_true_iff in Hfree as [Hx Ha].
    apply negb_true_iff in Hx.
    change (String x a ++ String c b)%string
      with (String x (a ++ String c b)%string).
    cbn [split]. rewrite Hx, (IH Ha). reflexivity.
Qed.

Lemma free_of_app c a b :
  free_of c a = true -> free_of c b = true -> free_of c (a ++ b)%string = true.
Proof.
  intros Ha Hb. induction a as [|x a IH]; [exact Hb|].
  cbn [free_of all_chars] in Ha. apply andb_true_iff in Ha as [Hx Ha].
  change (String x a ++ b)%string with (String x (a ++ b)%string).
  cbn [free_of all_chars]. rewrite Hx. cbn [andb]. now apply IH.
Qed.

(** The settings of the usual connection string. *)
Lemma parse_endpoint_and_key endpoint key credential :
  free_of ";" endpoint = true ->
  free_of ";" key = true ->
  _parse_connection_str
    ("AccountEndpoint=" ++ endpoint ++ ";AccountKey=" ++ key)%string credential
  = Ok (<["AccountKey" := key]> (<["AccountEndpoint" := endpoint]> ∅)).
Proof.
  intros He Hk. unfold _parse_connection_str.
  replace (rstrip ";" ("AccountEndpoint=" ++ endpoint ++ ";AccountKey=" ++ key))
    with ("AccountEndpoint=" ++ endpoint ++ ";AccountKey=" ++ key)%string.
  2:{ symmetry.
      replace ("AccountEndpoint=" ++ endpoint ++ ";AccountKey=" ++ key)%string
        with (("AccountEndpoint=" ++ endpoint ++ ";AccountKey")
                ++ ("=" ++ key))%string
        by (rewrite !string_app_assoc; reflexivity).
      apply rstrip_app; [discriminate|].
      change ("=" ++ key)%string with (String "=" key).
      cbn [free_of all_chars]. exact Hk. }
  replace ("AccountEndpoint=" ++ endpoint ++ ";AccountKey=" ++ key)%string
    with (("AccountEndpoint=" ++ endpoint) ++ String ";" ("AccountKey=" ++ key))%string
    by (rewrite !string_app_assoc; reflexivity).
  rewrite split_app by (apply free_of_app; [reflexivity | exact He]).
  rewrite split_free by (apply free_of_app; [reflexivity | exact Hk]).
  cbn [settings_of].
  change (partition "=" ("AccountEndpoint=" ++ endpoint)%string)
    with (Some ("AccountEndpoint", endpoint)).
  change (partition "=" ("AccountKey=" ++ key)%string)
    with (Some ("AccountKey", key)).
  cbv beta iota.
  rewrite lookup_insert_ne by discriminate. rewrite lookup_insert_eq.
  rewrite (bool_decide_eq_true_2 (is_Some (Some endpoint))) by eauto.
  cbn [negb]. rewrite lookup_insert_eq.
  rewrite (bool_decide_eq_true_2 (is_Some (Some key))) by eauto.
  cbn [negb]. now rewrite andb_false_r.
Qed.

(** A connection string made of an endpoint and a key, neither holding a
    semicolon, with or without the closing semicolon, parses to exactly
    these two settings; the key may hold [=] signs (the padding of a
    base64 key). *)
Theorem parse_connection_str_endpoint_and_key :
  forall endpoint key credential,
    free_of ";" endpoint = true ->
    free_of ";" key = true ->
    let settings :=
      <["AccountKey" := key]> (<["AccountEndpoint" := endpoint]> ∅) in
    _parse_connection_str
      ("AccountEndpoint=" ++ endpoint ++ ";AccountKey=" ++ key)%string
      credential = Ok settings /\
    _parse_connection_str
      (("AccountEndpoint=" ++ endpoint ++ ";AccountKey=" ++ key) ++ ";")%string
      credential = Ok settings.
Proof.
  intros endpoint key credential He Hk settings. subst settings.
  pose proof (parse_endpoint_and_key endpoint key credential He Hk) as H.
  split; [exact H|].
  unfold _parse_connection_str in *. now rewrite rstrip_trailing.
Qed.

(** Semicolons at the end of a connection string count for nothing. *)
Theorem parse_connection_str_ignores_trailing_semicolons :
  forall conn_str credential,
    _parse_connection_str (conn_str ++ ";")%string credential
    = _parse_connection_str conn_str credential.
Proof.
  intros conn_str credential. unfold _parse_connection_str.
  now rewrite rstrip_trailing.
Qed.

(** What a successful parse guarantees: the settings hold an account
    endpoint, and an account key unless a credential came with the
    connection string. *)
Theorem parse_connection_str_postcondition :
  forall conn_str credential settings,
    _parse_connection_str conn_str credential = Ok settings ->
    is_Some (settings !! "AccountEndpoint") /\
    (credential_truthy credential = false ->
     is_Some (settings !! "AccountKey")).
Proof.
  intros conn_str credential settings. unfold _parse_connection_str.
  destruct (settings_of _ _) as [m|]; [|discriminate].
  destruct (bool_decide (is_Some (m !! "AccountEndpoint"))) eqn:He;
    [|discriminate].
  cbn [negb].
  destruct (credential_truthy credential);
    destruct (bool_decide (is_Some (m !! "AccountKey"))) eqn:Hk;
    cbn [negb andb]; try discriminate; intros H; injection H as <-;
    apply bool_decide_eq_true_1 in He; split; auto; try discriminate.
  intros _. now apply bool_decide_eq_true_1 in Hk.
Qed.

Lemma settings_of_bad segments seg acc :
  In seg segments -> partition "=" seg = None ->
  settings_of segments acc = None.
Proof.
  revert acc. induction segments as [|s rest IH]; intros acc Hin Hbad;
    [contradiction|].
  cbn [settings_of]. destruct Hin as [-> | Hin].
  - now rewrite Hbad.
  - destruct (partition "=" s) as [[name v]|]; [|reflexivity].
    now apply IH.
Qed.

(** A connection string with a segment that has no [=] in it (an empty
    string, a doubled semicolon inside, a bare word) is refused with a
    [ValueError], whatever its other segments say. *)
Theorem parse_connection_str_segment_without_equals :
  forall conn_str credential seg,
    In seg (split ";" (rstrip ";" conn_str)) ->
    partition "=" seg = None ->
    _parse_connection_str conn_str credential
    = value_error
        "dictionary update sequence element has length 1; 2 is required".
Proof.
  intros conn_str credential seg Hin Hbad. unfold _parse_connection_str.
  now rewrite (settings_of_bad _ _ _ Hin Hbad).
Qed.

(** The authentication dictionary built from a credential always carries
    one of the three keys the client understands. *)
Theorem build_auth_has_known_key :
  forall credential auth,
    _build_auth credential = Ok auth ->
    exists key, In key auth_keys /\ is_Some (auth !! key).
Proof.
  intros credential auth. unfold _build_auth.
  destruct credential as [|s|d|l|name]; try discriminate.
  - intros H. injection H as <-. exists "masterKey". split; [simpl; auto|].
    rewrite lookup_singleton_eq. eauto.
  - destruct (existsb _ auth_keys) eqn:E; intros H; injection H as <-.
    + apply existsb_exists in E as (key & Hin & Hkey).
      apply bool_decide_eq_true_1 in Hkey. eauto.
    + exists "resourceTokens". split; [simpl; auto|].
      rewrite lookup_singleton_eq. eauto.
  - intros H. injection H as <-. exists "permissionFeed".
    split; [simpl; auto|]. rewrite lookup_singleton_eq. eauto.
Qed.

(** A client made from the usual connection string without a credential
    gets the endpoint as its URL and the account key as its master key; a
    string credential passed along replaces the key of the connection
    string. *)
Theorem from_connection_string_master_key :
  forall new_policy endpoint key kwargs,
    free_of ";" endpoint = true ->
    free_of ";" key = true ->
    let conn_str :=
      ("AccountEndpoint=" ++ endpoint ++ ";AccountKey=" ++ key)%string in
    let built := Cosmos._build_connection_policy new_policy kwargs in
    from_connection_string new_policy conn_str CredNone kwargs
    = Ok (endpoint, {["masterKey" := CredStr key]}, fst built, snd built) /\
    forall other_key,
      other_key <> "" ->
      from_connection_string new_policy conn_str (CredStr other_key) kwargs
      = Ok (endpoint, {["masterKey" := CredStr other_key]},
            fst built, snd built).
Proof.
  intros new_policy endpoint key kwargs He Hk conn_str built.
  subst conn_str built. unfold from_connection_string.
  split; [|intros other_key Hother];
    rewrite (parse_endpoint_and_key _ _ _ He Hk);
    rewrite lookup_insert_ne by discriminate; rewrite lookup_insert_eq.
  - cbn [credential_truthy]. rewrite lookup_insert_eq.
    unfold CosmosClient_init. cbn [_build_auth].
    now destruct (Cosmos._build_connection_policy new_policy kwargs).
  - cbn [credential_truthy].
    rewrite (proj2 (String.eqb_neq _ _) Hother). cbn [negb].
    unfold CosmosClient_init. cbn [_build_auth].
    now destruct (Cosmos._build_connection_policy new_policy kwargs).
Qed.

(** The link of a database named by its properties is the link of its id,
    the id [get_database_client] takes from them; properties without an
    [id] are a [KeyError] for both. *)
Theorem database_link_of_properties :
  forall properties : gmap string string,
    match properties !! "id" with
    | Some id =>
        get_database_client_id (DatabaseProperties properties) = Ok id /\
        _get_database_link (DatabaseProperties properties)
        = _get_database_link (DatabaseId id)
    | None =>
        get_database_client_id (DatabaseProperties properties)
        = key_error "id" /\
        _get_database_link (DatabaseProperties properties) = key_error "id"
    end.
Proof.
  intros properties. unfold get_database_client_id, _get_database_link.
  destruct (properties !! "id"); split; reflexivity.
Qed.

End ConnectionStringProperties.

(** * The body of a Cosmos request *)

Section BodyProperties.
Import PyStr Core Synchronized.
Context {J : Type}.
Variable json_dumps : J -> string.
Variable len : string -> Z.
Variable ContentLength : string.

Lemma set_header_is name v headers :
  header_is name v (set_header name v headers).
Proof.
  unfold header_is, set_header. split; [apply lookup_insert_eq|].
  intros other Hlow Hne. rewrite lookup_insert_ne by congruence.
  apply map_lookup_filter_None. right. intros x _ HP. now apply HP.
Qed.

Lemma set_header_other name v headers other :
  lower other <> lower name ->
  set_header name v headers !! other = headers !! other.
Proof.
  intros Hlow. unfold set_header.
  rewrite lookup_insert_ne by (intros ->; now apply Hlow).
  destruct (headers !! other) as [x|] eqn:E.
  - apply map_lookup_filter_Some. split; [exact E | exact Hlow].
  - apply map_lookup_filter_None. now left.
Qed.

(** Data that is neither a string, a readable stream nor a dict, list or
    tuple (a number, an object whose [read] cannot be called) is dropped
    without a word: the request goes out as if no data had been given,
    with no body and a Content-Length of 0. *)
Theorem unsupported_data_is_dropped :
  forall headers (data : RequestData J),
    (exists v, data = DataScalar v) \/
    (exists has_read callable,
        data = DataObject has_read callable /\ has_read && callable = false) ->
    SynchronizedRequest_prepare json_dumps len ContentLength headers data
    = SynchronizedRequest_prepare json_dumps len ContentLength headers DataNone /\
    SynchronizedRequest_prepare json_dumps len ContentLength headers data
    = (BodyNone, set_header ContentLength (VInt 0) headers) /\
    header_is ContentLength (VInt 0)
      (snd (SynchronizedRequest_prepare json_dumps len ContentLength headers data)).
Proof.
  intros headers data [[v ->] | (has_read & callable & -> & Hno)].
  - split; [reflexivity|]. split; [reflexivity|]. apply set_header_is.
  - destruct has_read, callable; try discriminate;
      (split; [reflexivity|]; split; [reflexivity|]; apply set_header_is).
Qed.

(** The Content-Length header is written for a body that is [None] (as 0)
    or a non-empty string (as [len] of the string), replacing an entry of
    that name in whatever spelling, and the headers are left as they were
    for an empty string and for a stream; a header of another name is
    never touched. *)
Theorem content_length_only_for_text_and_none :
  forall headers (data : RequestData J),
    let out :=
      SynchronizedRequest_prepare json_dumps len ContentLength headers data in
    (forall name, lower name <> lower ContentLength ->
                  snd out !! name = headers !! name) /\
    match fst out with
    | BodyNone => header_is ContentLength (VInt 0) (snd out)
    | BodyText s =>
        if String.eqb s ""
        then snd out = headers
        else header_is ContentLength (VInt (len s)) (snd out)
    | BodyStream => snd out = headers
    end.
Proof.
  intros headers data out. subst out.
  unfold SynchronizedRequest_prepare. cbn [fst snd].
  destruct (_request_body_from_data json_dumps data) as [|s|];
    cbn [content_length_headers].
  - split; [intros name Hne; now apply set_header_other|].
    apply set_header_is.
  - destruct (String.eqb s ""); cbn [negb].
    + split; reflexivity.
    + split; [intros name Hne; now apply set_header_other|].
      apply set_header_is.
  - split; reflexivity.
Qed.

End BodyProperties.

(** * The further properties at the sample inputs *)

Section MoreInstances.
Import Core RetryAsync RetryTrace.


(** A [ValueError] on a GET with every budget left. *)
Lemma send_foreign_exception_propagates_witness :
  send_loop (base := Samples.policy) Scripted.next_send 1
            Samples.fresh_settings Samples.get_request
            (Scripted.start [Raise MoreSamples.foreign_failure])
  = Some (Raise MoreSamples.foreign_failure,
          after_attempt (Scripted.start [Raise MoreSamples.foreign_failure])
                        (Raise MoreSamples.foreign_failure) []).
Proof.
  apply (send_foreign_exception_propagates
           (base := Samples.policy) Scripted.next_send);
    reflexivity.
Defined.


(** The call throttled once: attempt, sleep, attempt. *)
Lemma send_trace_shape_witness :
  exists added,
    trace MoreSamples.two_attempts_world
    = trace (Scripted.start MoreSamples.two_attempts) ++ added /\
    run_shape added = true.
Proof.
  apply (send_trace_shape
           (base := Samples.policy) Scripted.next_send 5%nat
           Samples.get_request (Scripted.start MoreSamples.two_attempts)
           MoreSamples.two_attempts_world MoreSamples.two_attempts_result).
  vm_compute. reflexivity.
Defined.

Lemma send_result_is_last_attempt_witness :
  exists added attempt,
    trace MoreSamples.two_attempts_world
    = trace (Scripted.start MoreSamples.two_attempts) ++ added /\
    last_outcome added = Some attempt /\
    same_outcome attempt MoreSamples.two_attempts_result.
Proof.
  apply (send_result_is_last_attempt
           (base := Samples.policy) Scripted.next_send 5%nat
           Samples.get_request (Scripted.start MoreSamples.two_attempts)).
  vm_compute. reflexivity.
Defined.

(** At [Retry-After: 5] before the first retry of a default call the
    transport sleeps 5 seconds. *)
Lemma sleep_retry_after_nonzero_witness :
  get_retry_after (RetryPolicy := Samples.policy)
                  (Samples.throttled_retry_after "5") = Some 5%Q /\
  trace (sleep (base := Samples.policy) Samples.first_retry_settings
               (Some (Samples.throttled_retry_after "5")) (Scripted.start []))
  = [EvSleep 5%Q].
Proof.
  split; [reflexivity|].
  apply (proj2 (sleep_retry_after_nonzero
                  (base := Samples.policy) Samples.first_retry_settings
                  (Samples.throttled_retry_after "5") 5%Q (Scripted.start [])
                  eq_refl
                  ltac:(unfold Qeq; simpl; lia))).
Defined.

End MoreInstances.

Section MoreCosmosInstances.
Import Core Cosmos.

Abbreviation at_samples thm endpoint r :=
  (thm false "Streamed" (fun _ : value => "") string
       (@inl string string) string (fun g : string => g)
       (fun _ : string => Samples.resolve_to endpoint)
       unit (Samples.constant_pipeline r)).

(** A streamed media request answered with a 404. *)
Lemma Request_streamed_media_skips_status_check_witness :
  fst (Samples.request_on "https://localhost:8081"
         (Samples.answer 404 MoreSamples.empty_object) Samples.read_params
         MoreSamples.streamed_policy Samples.emulator_client
         MoreSamples.media_request ∅ Samples.start)
  = Ok (PStream (Samples.answer 404 MoreSamples.empty_object), []).
Proof.
  apply (at_samples Request_streamed_media_skips_status_check
           "https://localhost:8081"
           (Samples.answer 404 MoreSamples.empty_object)
           Samples.read_params MoreSamples.streamed_policy
           Samples.emulator_client MoreSamples.media_request ∅ Samples.start
           MoreSamples.media_request MoreSamples.media_keywords
           (MoreSamples.answer_of MoreSamples.media_request
              (Samples.answer 404 MoreSamples.empty_object)) tt);
    vm_compute; reflexivity.
Defined.

(** A 200 with the JSON text of an empty object (the sample parser hands
    the text back as the document). *)
Lemma Request_success_payload_witness :
  fst (Samples.request_on "https://localhost:8081"
         (Samples.answer 200 MoreSamples.empty_object) Samples.read_params
         Samples.default_connection_policy Samples.emulator_client
         Samples.emulator_request ∅ Samples.start)
  = Ok (PJson "{}", []).
Proof.
  refine (proj1 (proj2 (proj2
            (at_samples Request_success_payload
               "https://localhost:8081"
               (Samples.answer 200 MoreSamples.empty_object)
               Samples.read_params Samples.default_connection_policy
               Samples.emulator_client Samples.emulator_request ∅ Samples.start
               Samples.emulator_request Samples.emulator_keywords
               (Samples.emulator_answer
                  (Samples.answer 200 MoreSamples.empty_object)) tt
               _ _ _ _ _))) "{}" _ _ _).
  - vm_compute. reflexivity.
  - vm_compute. reflexivity.
  - vm_compute. reflexivity.
  - right. vm_compute. reflexivity.
  - vm_compute. reflexivity.
  - reflexivity.
  - vm_compute. discriminate.
  - reflexivity.
Defined.


(** A request to the emulator under a policy with an SSL configuration:
    the host name no longer disables verification. *)
Lemma Request_ssl_configuration_keywords_witness :
  MoreSamples.ssl_keywords !! "connection_verify" = Some (VStr "ca.pem") /\
  MoreSamples.ssl_keywords !! "connection_cert"
  = Some (VTuple (VStr "client.pem") (VStr "client.key")).
Proof.
  assert (Hruns : runs (snd (Samples.request_on "https://localhost:8081"
                               (Samples.answer 200 []) Samples.read_params
                               MoreSamples.ssl_policy Samples.emulator_client
                               Samples.emulator_request ∅ Samples.start))
                  = runs Samples.start
                    ++ [(Samples.emulator_request, MoreSamples.ssl_keywords)])
    by (vm_compute; reflexivity).
  pose proof (at_samples Request_ssl_configuration_keywords
                "https://localhost:8081" (Samples.answer 200 [])
                Samples.read_params MoreSamples.ssl_policy _ _ _ _
                MoreSamples.ssl_files _ _ eq_refl Hruns) as H.
  rewrite !lookup_empty in H. exact H.
Defined.

(** The default request timeout of 60000 ms reaches the pipeline as 60 s. *)
Lemma Request_connection_timeout_witness :
  Samples.emulator_keywords !! "connection_timeout"
  = Some (VFloat (inject_Z 60000 / 1000)).
Proof.
  assert (Hruns : runs (snd (Samples.request_on "https://localhost:8081"
                               (Samples.answer 200 []) Samples.read_params
                               Samples.default_connection_policy
                               Samples.emulator_client
                               Samples.emulator_request ∅ Samples.start))
                  = runs Samples.start
                    ++ [(Samples.emulator_request, Samples.emulator_keywords)])
    by (vm_compute; reflexivity).
  pose proof (at_samples Request_connection_timeout
                "https://localhost:8081" (Samples.answer 200 [])
                _ _ _ _ _ _ _ _ Hruns) as H.
  rewrite lookup_empty in H. exact H.
Defined.

(** A request with an integer Content-Length and a string header. *)
Lemma Request_sends_string_headers_witness :
  method MoreSamples.headed_request_sent = method MoreSamples.headed_request /\
  headers MoreSamples.headed_request_sent !! "x-ms-version"
  = Some (VStr "2018-12-31").
Proof.
  assert (Hruns : runs (snd (Samples.request_on "https://localhost:8081"
                               (Samples.answer 200 []) Samples.read_params
                               Samples.default_connection_policy
                               Samples.emulator_client
                               MoreSamples.headed_request ∅ Samples.start))
                  = runs Samples.start
                    ++ [(MoreSamples.headed_request_sent,
                         Samples.emulator_keywords)])
    by (vm_compute; reflexivity).
  destruct (at_samples Request_sends_string_headers
              "https://localhost:8081" (Samples.answer 200 [])
              _ _ _ _ _ _ _ _ Hruns)
    as (Hmethod & _ & _ & _ & Hstrings).
  split; [exact Hmethod|].
  apply Hstrings. vm_compute. reflexivity.
Defined.

(** A URL of another account is not touched by the failover. *)
Lemma rewrite_url_leaves_foreign_urls_witness :
  rewrite_url Samples.account_client
              "https://acct-westus.documents.azure.com"
              "https://other.documents.azure.com/dbs/db1"
  = "https://other.documents.azure.com/dbs/db1".
Proof.
  apply rewrite_url_leaves_foreign_urls. right.
  split; [discriminate | reflexivity].
Defined.

(** Discovery on by default, switched "off" by keyword. *)
Lemma build_connection_policy_switches_stay_on_witness :
  EnableEndpointDiscovery
    (fst (_build_connection_policy Samples.default_connection_policy
                                   MoreSamples.both_timeouts)) = true.
Proof.
  apply (proj1 (build_connection_policy_switches_stay_on
                  Samples.default_connection_policy
                  MoreSamples.both_timeouts)).
  reflexivity.
Defined.

(** [request_timeout=5000] beside [connection_timeout=7000], and
    [connection_timeout=7000] alone. *)
Lemma build_connection_policy_timeout_precedence_witness :
  (RequestTimeout
     (fst (_build_connection_policy Samples.default_connection_policy
                                    MoreSamples.both_timeouts)) = 5000 /\
   connection_timeout
     (snd (_build_connection_policy Samples.default_connection_policy
                                    MoreSamples.both_timeouts)) = Some 7000) /\
  RequestTimeout
    (fst (_build_connection_policy Samples.default_connection_policy
                                   MoreSamples.connection_timeout_only)) = 7000.
Proof.
  split.
  - apply (proj1 (build_connection_policy_timeout_precedence
                    Samples.default_connection_policy
                    MoreSamples.both_timeouts) 5000 eq_refl).
    lia.
  - apply (proj2 (proj2 (build_connection_policy_timeout_precedence
                           Samples.default_connection_policy
                           MoreSamples.connection_timeout_only)
                        (or_introl eq_refl)) 7000 eq_refl).
    lia.
Defined.

(** A certificate keyword with no SSL configuration anywhere. *)
Lemma build_connection_policy_cert_needs_ssl_config_witness :
  SSLConfig (fst (_build_connection_policy Samples.default_connection_policy
                                           MoreSamples.both_timeouts)) = None /\
  connection_cert
    (snd (_build_connection_policy Samples.default_connection_policy
                                   MoreSamples.both_timeouts))
  = Some (VStr "client.pem").
Proof.
  apply (build_connection_policy_cert_needs_ssl_config
           Samples.default_connection_policy MoreSamples.both_timeouts
           eq_refl eq_refl).
Defined.

End MoreCosmosInstances.

Section MoreClientInstances.
Import Core CosmosClient Synchronized.

(** The sample connection string, with a base64 key ending in [==]. *)
Lemma parse_connection_str_endpoint_and_key_witness :
  _parse_connection_str MoreSamples.connection_string CredNone
  = Ok MoreSamples.connection_settings /\
  _parse_connection_str (MoreSamples.connection_string ++ ";")%string CredNone
  = Ok MoreSamples.connection_settings.
Proof.
  apply (parse_connection_str_endpoint_and_key
           MoreSamples.endpoint MoreSamples.account_key CredNone);
    reflexivity.
Defined.

Lemma parse_connection_str_postcondition_witness :
  is_Some (MoreSamples.connection_settings !! "AccountEndpoint") /\
  (credential_truthy CredNone = false ->
   is_Some (MoreSamples.connection_settings !! "AccountKey")).
Proof.
  apply (parse_connection_str_postcondition
           MoreSamples.connection_string CredNone).
  vm_compute. reflexivity.
Defined.

(** The empty connection string. *)
Lemma parse_connection_str_segment_without_equals_witness :
  _parse_connection_str "" CredNone
  = value_error
      "dictionary update sequence element has length 1; 2 is required".
Proof.
  apply (parse_connection_str_segment_without_equals "" CredNone "");
    [left; reflexivity | reflexivity].
Defined.

(** A dictionary of resource tokens. *)
Lemma build_auth_has_known_key_witness :
  exists key,
    In key auth_keys /\
    is_Some (({["resourceTokens" :=
                  CredDict {["dbs/db1/colls/c1" := CredStr "token"]}]}
              : gmap string Credential) !! key).
Proof.
  apply (build_auth_has_known_key
           (CredDict {["dbs/db1/colls/c1" := CredStr "token"]})).
  vm_compute. reflexivity.
Defined.

Lemma from_connection_string_master_key_witness :
  from_connection_string Samples.default_connection_policy
                         MoreSamples.connection_string CredNone Cosmos.no_kwargs
  = Ok (MoreSamples.endpoint,
        {["masterKey" := CredStr MoreSamples.account_key]},
        fst (Cosmos._build_connection_policy Samples.default_connection_policy
                                             Cosmos.no_kwargs),
        snd (Cosmos._build_connection_policy Samples.default_connection_policy
                                             Cosmos.no_kwargs)).
Proof.
  apply (proj1 (from_connection_string_master_key
                  Samples.default_connection_policy
                  MoreSamples.endpoint MoreSamples.account_key
                  Cosmos.no_kwargs eq_refl eq_refl)).
Defined.

(** A number passed as the data of a request whose headers have a
    Content-Length in lower case: the entry is replaced. *)
Lemma unsupported_data_is_dropped_witness :
  SynchronizedRequest_prepare (fun s : string => s) utf8_len "Content-Length"
                              MoreSamples.stale_length_headers
                              (DataScalar (VInt 42))
  = (BodyNone,
     set_header "Content-Length" (VInt 0) MoreSamples.stale_length_headers) /\
  set_header "Content-Length" (VInt 0) MoreSamples.stale_length_headers
  = {["Content-Length" := VInt 0]}.
Proof.
  split; [|vm_compute; reflexivity].
  apply (proj1 (proj2 (unsupported_data_is_dropped
                         (fun s : string => s) utf8_len "Content-Length"
                         MoreSamples.stale_length_headers
                         (DataScalar (VInt 42))
                         (or_introl (ex_intro _ (VInt 42) eq_refl))))).
Defined.

(** A request with a header of its own and, as its data, a text of three
    characters, four bytes in UTF-8: the header is kept and the
    Content-Length is 3. *)
Lemma content_length_only_for_text_and_none_witness :
  snd (SynchronizedRequest_prepare
         (fun s : string => s) utf8_len "Content-Length"
         MoreSamples.version_headers (DataText MoreSamples.accented_text))
  !! "x-ms-version" = Some (VStr "2018-12-31") /\
  header_is "Content-Length" (VInt 3)
    (snd (SynchronizedRequest_prepare
            (fun s : string => s) utf8_len "Content-Length"
            MoreSamples.version_headers (DataText MoreSamples.accented_text))).
Proof.
  destruct (content_length_only_for_text_and_none
              (fun s : string => s) utf8_len "Content-Length"
              MoreSamples.version_headers
              (DataText MoreSamples.accented_text)) as [Hother Hlength].
  split.
  - rewrite (Hother "x-ms-version") by discriminate.
    vm_compute. reflexivity.
  - exact Hlength.
Defined.

End MoreClientInstances.
